(** * Book_Swap: the create/list endpoints over four stable tables

    A shallow embedding of the two copies of the server that the repository
    holds:

    - [SrcIndex] is [src/index.ts]: request bodies are typed by interfaces and
      validated by the generic helper [validateRequestBody];
    - [Part000] is the second copy of the server, where every create route
      carries its own hand-written truthiness and [typeof] test.

    Both copies share the four entity classes and the four [StableBTreeMap]
    tables.  JavaScript values are modelled as far as the handlers look at
    them: truthiness, [typeof], comparison with [undefined] and [null].
    The two sources of non-determinism, [uuidv4()] and [new Date()], are read
    from an environment that is handed to each request; [req.body] is the
    object that [express.json()] leaves there.  The table library is not part
    of the repository: a table is the finite map of what [insert] was given,
    and how a stored value comes back from [values()] is a parameter of the
    development, [TableLibrary].  The [try] block of a list handler fails,
    and its [catch] answers 500, when that read fails.  The id generator and
    [insert] are total, so the [catch] of a create handler is not taken. *)

From Stdlib Require Import ZArith String List.
From Stdlib Require Import Floats.SpecFloat.
From stdpp Require Import base option strings list gmap fin_maps sorting.

Local Open Scope string_scope.
Local Open Scope Z_scope.
Local Open Scope list_scope.

Set Warnings "-register-all".

(** ** JavaScript values *)

(** What [express.json()] can put in a body, plus what reading a property
    that the body does not own gives: [undefined], or a member of
    [Object.prototype].  A number is an IEEE double. *)
Inductive JsValue :=
| JsUndefined
| JsNull
| JsBoolean (b : bool)
| JsNumber (x : spec_float)
| JsString (s : string)
| JsArray (xs : list JsValue)
| JsObject (fields : list (string * JsValue))
| JsFunction.

(** What every object inherits from [Object.prototype]: eleven functions and
    the accessor [__proto__], which gives the prototype itself, an object
    without enumerable properties. *)
Definition Object_prototype (field : string) : JsValue :=
  if bool_decide (field ∈ ["constructor"; "hasOwnProperty"; "isPrototypeOf";
                           "propertyIsEnumerable"; "toLocaleString"; "toString";
                           "valueOf"; "__defineGetter__"; "__defineSetter__";
                           "__lookupGetter__"; "__lookupSetter__"])
  then JsFunction
  else if String.eqb field "__proto__" then JsObject []
  else JsUndefined.

(** [body[field]], where [body] holds the own properties of [req.body], an
    object read from JSON: an own property first, an inherited one
    otherwise. *)
Definition prop (body : gmap string JsValue) (field : string) : JsValue :=
  match body !! field with
  | Some v => v
  | None => Object_prototype field
  end.

(** [typeof v] *)
Definition typeof (v : JsValue) : string :=
  match v with
  | JsUndefined => "undefined"
  | JsNull => "object"
  | JsBoolean _ => "boolean"
  | JsNumber _ => "number"
  | JsString _ => "string"
  | JsArray _ => "object"
  | JsObject _ => "object"
  | JsFunction => "function"
  end.

(** ToBoolean: [!v] is [negb (truthy v)]. *)
Definition truthy (v : JsValue) : bool :=
  match v with
  | JsUndefined => false
  | JsNull => false
  | JsBoolean b => b
  | JsNumber (S754_zero _) => false
  | JsNumber S754_nan => false
  | JsNumber _ => true
  | JsString s => negb (String.eqb s "")
  | JsArray _ => true
  | JsObject _ => true
  | JsFunction => true
  end.

(** [v !== undefined] and [v !== null] *)
Definition neq_undefined (v : JsValue) : bool :=
  match v with JsUndefined => false | _ => true end.

Definition neq_null (v : JsValue) : bool :=
  match v with JsNull => false | _ => true end.

(** [typeof v !== t] *)
Definition typeof_neq (v : JsValue) (t : string) : bool :=
  negb (String.eqb (typeof v) t).

(** ** Entities *)

(** The field types of the classes are erased at run time: a constructor
    stores whatever value it is given. *)
Record User := mkUser {
  user_id : string;
  user_name : JsValue;
  user_email : JsValue;
  user_createdAt : Z
}.

Record Book := mkBook {
  book_id : string;
  book_userId : JsValue;
  book_title : JsValue;
  book_author : JsValue;
  book_description : JsValue;
  book_createdAt : Z
}.

Record SwapRequest := mkSwapRequest {
  swap_id : string;
  swap_bookId : JsValue;
  swap_requestedById : JsValue;
  swap_status : JsValue;
  swap_createdAt : Z
}.

Record Feedback := mkFeedback {
  feedback_id : string;
  feedback_userId : JsValue;
  feedback_swapRequestId : JsValue;
  feedback_rating : JsValue;
  feedback_comment : JsValue;
  feedback_createdAt : Z
}.

(** What the outside world gives to one request: the string the next
    [uuidv4()] call returns and the time [new Date()] reads. *)
Record Env := mkEnv {
  uuidv4 : string;
  now : Z
}.

(** The constructors. *)
Definition new_User (e : Env) (name email : JsValue) : User :=
  {| user_id := uuidv4 e; user_name := name; user_email := email;
     user_createdAt := now e |}.

Definition new_Book (e : Env) (userId title author description : JsValue) : Book :=
  {| book_id := uuidv4 e; book_userId := userId; book_title := title;
     book_author := author; book_description := description;
     book_createdAt := now e |}.

Definition new_SwapRequest (e : Env) (bookId requestedById status : JsValue)
  : SwapRequest :=
  {| swap_id := uuidv4 e; swap_bookId := bookId;
     swap_requestedById := requestedById; swap_status := status;
     swap_createdAt := now e |}.

Definition new_Feedback (e : Env) (userId swapRequestId rating comment : JsValue)
  : Feedback :=
  {| feedback_id := uuidv4 e; feedback_userId := userId;
     feedback_swapRequestId := swapRequestId; feedback_rating := rating;
     feedback_comment := comment; feedback_createdAt := now e |}.

(** ** Storage tables *)

(** [StableBTreeMap<string, V>] is a finite map from keys to values;
    [insert] overwrites silently and is stdpp's [<[k:=v]>].  [values()]
    walks the tree in ascending key order and decodes each stored value. *)
Definition key_le {V} (p q : string * V) : Prop := String.le p.1 q.1.

Global Instance key_le_dec {V} : RelDecision (@key_le V).
Proof. intros p q. unfold key_le. apply _. Defined.

Global Instance key_le_total {V} : Total (@key_le V).
Proof. intros p q. unfold key_le. apply (total String.le). Qed.

Definition entries {V} (m : gmap string V) : list (string * V) :=
  merge_sort key_le (map_to_list m).

(** What [insert] was given, in ascending key order. *)
Definition stored {V} (m : gmap string V) : list V := (entries m).*2.

(** [values()], for a table whose stored values are read back by [decode]:
    [None] when reading one of them throws. *)
Definition values {V} (decode : V -> option V) (m : gmap string V)
  : option (list V) :=
  mapM decode (stored m).

(** The read path of the table library, which the repository does not
    contain.  [read_back v] is what a list handler holds, and can send, for a
    field that was stored as [v]: the library writes a value as JSON and
    reads it through a reviver, so it need not be [v]; [None] when reading it
    back or sending it throws.  The [id] and the [createdAt] of an entity are
    strings on that path and come back as they went in. *)
Class TableLibrary := { read_back : JsValue -> option JsValue }.

Definition read_User `{TableLibrary} (u : User) : option User :=
  name ← read_back (user_name u);
  email ← read_back (user_email u);
  Some {| user_id := user_id u; user_name := name; user_email := email;
          user_createdAt := user_createdAt u |}.

Definition read_Book `{TableLibrary} (b : Book) : option Book :=
  userId ← read_back (book_userId b);
  title ← read_back (book_title b);
  author ← read_back (book_author b);
  description ← read_back (book_description b);
  Some {| book_id := book_id b; book_userId := userId; book_title := title;
          book_author := author; book_description := description;
          book_createdAt := book_createdAt b |}.

Definition read_SwapRequest `{TableLibrary} (r : SwapRequest) : option SwapRequest :=
  bookId ← read_back (swap_bookId r);
  requestedById ← read_back (swap_requestedById r);
  status ← read_back (swap_status r);
  Some {| swap_id := swap_id r; swap_bookId := bookId;
          swap_requestedById := requestedById; swap_status := status;
          swap_createdAt := swap_createdAt r |}.

Definition read_Feedback `{TableLibrary} (f : Feedback) : option Feedback :=
  userId ← read_back (feedback_userId f);
  swapRequestId ← read_back (feedback_swapRequestId f);
  rating ← read_back (feedback_rating f);
  comment ← read_back (feedback_comment f);
  Some {| feedback_id := feedback_id f; feedback_userId := userId;
          feedback_swapRequestId := swapRequestId; feedback_rating := rating;
          feedback_comment := comment; feedback_createdAt := feedback_createdAt f |}.

Record State := mkState {
  usersStorage : gmap string User;
  booksStorage : gmap string Book;
  swapRequestsStorage : gmap string SwapRequest;
  feedbackStorage : gmap string Feedback
}.

Definition initial : State :=
  {| usersStorage := ∅; booksStorage := ∅;
     swapRequestsStorage := ∅; feedbackStorage := ∅ |}.

(** ** Responses *)

(** The JSON bodies the handlers send. *)
Inductive Json :=
| JError (error : string)
| JUser (message : string) (user : User)
| JUsers (message : string) (users : list User)
| JBook (message : string) (book : Book)
| JBooks (message : string) (books : list Book)
| JSwapRequest (message : string) (swapRequest : SwapRequest)
| JSwapRequests (message : string) (swapRequests : list SwapRequest)
| JFeedback (message : string) (feedback : Feedback)
| JFeedbackList (message : string) (feedback : list Feedback).

Record Response := mkResponse {
  status : Z;
  json : Json
}.

(** The eight routes. *)
Inductive Request :=
| PostUsers (body : gmap string JsValue)
| GetUsers
| PostBooks (body : gmap string JsValue)
| GetBooks
| PostSwapRequests (body : gmap string JsValue)
| GetSwapRequests
| PostFeedback (body : gmap string JsValue)
| GetFeedback.

(** ** The server of [src/index.ts] *)

Module SrcIndex.

Definition validateRequestBody (body : gmap string JsValue)
    (requiredFields : list string) : bool :=
  forallb (fun field => neq_undefined (prop body field) && neq_null (prop body field))
          requiredFields.

Definition post_users (e : Env) (body : gmap string JsValue) (s : State)
  : State * Response :=
  let name := prop body "name" in
  let email := prop body "email" in
  if negb (validateRequestBody body ["name"; "email"]) then
    (s, {| status := 400;
           json := JError "Invalid input: Ensure 'name' and 'email' are provided and are strings." |})
  else
    let user := new_User e name email in
    ({| usersStorage := <[user_id user := user]> (usersStorage s);
        booksStorage := booksStorage s;
        swapRequestsStorage := swapRequestsStorage s;
        feedbackStorage := feedbackStorage s |},
     {| status := 201; json := JUser "User created successfully" user |}).

Definition get_users `{TableLibrary} (s : State) : State * Response :=
  match values read_User (usersStorage s) with
  | Some users =>
      (s, {| status := 200; json := JUsers "Users retrieved successfully" users |})
  | None =>
      (s, {| status := 500; json := JError "Server error occurred while retrieving users." |})
  end.

Definition post_books (e : Env) (body : gmap string JsValue) (s : State)
  : State * Response :=
  let userId := prop body "userId" in
  let title := prop body "title" in
  let author := prop body "author" in
  let description := prop body "description" in
  if negb (validateRequestBody body ["userId"; "title"; "author"; "description"]) then
    (s, {| status := 400;
           json := JError "Invalid input: Ensure 'userId', 'title', 'author', and 'description' are provided and are of the correct types." |})
  else
    let book := new_Book e userId title author description in
    ({| usersStorage := usersStorage s;
        booksStorage := <[book_id book := book]> (booksStorage s);
        swapRequestsStorage := swapRequestsStorage s;
        feedbackStorage := feedbackStorage s |},
     {| status := 201; json := JBook "Book created successfully" book |}).

Definition get_books `{TableLibrary} (s : State) : State * Response :=
  match values read_Book (booksStorage s) with
  | Some books =>
      (s, {| status := 200; json := JBooks "Books retrieved successfully" books |})
  | None =>
      (s, {| status := 500; json := JError "Server error occurred while retrieving books." |})
  end.

Definition post_swapRequests (e : Env) (body : gmap string JsValue) (s : State)
  : State * Response :=
  let bookId := prop body "bookId" in
  let requestedById := prop body "requestedById" in
  let status_ := prop body "status" in
  if negb (validateRequestBody body ["bookId"; "requestedById"; "status"]) then
    (s, {| status := 400;
           json := JError "Invalid input: Ensure 'bookId', 'requestedById', and 'status' are provided and are of the correct types." |})
  else
    let swapRequest := new_SwapRequest e bookId requestedById status_ in
    ({| usersStorage := usersStorage s;
        booksStorage := booksStorage s;
        swapRequestsStorage :=
          <[swap_id swapRequest := swapRequest]> (swapRequestsStorage s);
        feedbackStorage := feedbackStorage s |},
     {| status := 201;
        json := JSwapRequest "Swap request created successfully" swapRequest |}).

Definition get_swapRequests `{TableLibrary} (s : State) : State * Response :=
  match values read_SwapRequest (swapRequestsStorage s) with
  | Some swapRequests =>
      (s, {| status := 200; json := JSwapRequests "Swap requests retrieved successfully" swapRequests |})
  | None =>
      (s, {| status := 500; json := JError "Server error occurred while retrieving swap requests." |})
  end.

Definition post_feedback (e : Env) (body : gmap string JsValue) (s : State)
  : State * Response :=
  let userId := prop body "userId" in
  let swapRequestId := prop body "swapRequestId" in
  let rating := prop body "rating" in
  let comment := prop body "comment" in
  if negb (validateRequestBody body ["userId"; "swapRequestId"; "rating"; "comment"]) then
    (s, {| status := 400;
           json := JError "Invalid input: Ensure 'userId', 'swapRequestId', 'rating', and 'comment' are provided and are of the correct types." |})
  else
    let feedback := new_Feedback e userId swapRequestId rating comment in
    ({| usersStorage := usersStorage s;
        booksStorage := booksStorage s;
        swapRequestsStorage := swapRequestsStorage s;
        feedbackStorage := <[feedback_id feedback := feedback]> (feedbackStorage s) |},
     {| status := 201; json := JFeedback "Feedback created successfully" feedback |}).

Definition get_feedback `{TableLibrary} (s : State) : State * Response :=
  match values read_Feedback (feedbackStorage s) with
  | Some feedback =>
      (s, {| status := 200; json := JFeedbackList "Feedback retrieved successfully" feedback |})
  | None =>
      (s, {| status := 500; json := JError "Server error occurred while retrieving feedback." |})
  end.

(** Route dispatch. *)
Definition handle `{TableLibrary} (e : Env) (r : Request) (s : State)
  : State * Response :=
  match r with
  | PostUsers body => post_users e body s
  | GetUsers => get_users s
  | PostBooks body => post_books e body s
  | GetBooks => get_books s
  | PostSwapRequests body => post_swapRequests e body s
  | GetSwapRequests => get_swapRequests s
  | PostFeedback body => post_feedback e body s
  | GetFeedback => get_feedback s
  end.

End SrcIndex.

(** ** The second copy of the server, with per-route checks *)

Module Part000.

Definition post_users (e : Env) (body : gmap string JsValue) (s : State)
  : State * Response :=
  if negb (truthy (prop body "name")) ||
     typeof_neq (prop body "name") "string" ||
     negb (truthy (prop body "email")) ||
     typeof_neq (prop body "email") "string"
  then
    (s, {| status := 400;
           json := JError "Invalid input: Ensure 'name' and 'email' are provided and are strings." |})
  else
    let user := new_User e (prop body "name") (prop body "email") in
    ({| usersStorage := <[user_id user := user]> (usersStorage s);
        booksStorage := booksStorage s;
        swapRequestsStorage := swapRequestsStorage s;
        feedbackStorage := feedbackStorage s |},
     {| status := 201; json := JUser "User created successfully" user |}).

Definition get_users `{TableLibrary} (s : State) : State * Response :=
  match values read_User (usersStorage s) with
  | Some users =>
      (s, {| status := 200; json := JUsers "Users retrieved successfully" users |})
  | None =>
      (s, {| status := 500; json := JError "Server error occurred while retrieving users." |})
  end.

Definition post_books (e : Env) (body : gmap string JsValue) (s : State)
  : State * Response :=
  if negb (truthy (prop body "userId")) ||
     typeof_neq (prop body "userId") "string" ||
     negb (truthy (prop body "title")) ||
     typeof_neq (prop body "title") "string" ||
     negb (truthy (prop body "author")) ||
     typeof_neq (prop body "author") "string" ||
     negb (truthy (prop body "description")) ||
     typeof_neq (prop body "description") "string"
  then
    (s, {| status := 400;
           json := JError "Invalid input: Ensure 'userId', 'title', 'author', and 'description' are provided and are of the correct types." |})
  else
    let book := new_Book e (prop body "userId") (prop body "title")
                         (prop body "author") (prop body "description") in
    ({| usersStorage := usersStorage s;
        booksStorage := <[book_id book := book]> (booksStorage s);
        swapRequestsStorage := swapRequestsStorage s;
        feedbackStorage := feedbackStorage s |},
     {| status := 201; json := JBook "Book created successfully" book |}).

Definition get_books `{TableLibrary} (s : State) : State * Response :=
  match values read_Book (booksStorage s) with
  | Some books =>
      (s, {| status := 200; json := JBooks "Books retrieved successfully" books |})
  | None =>
      (s, {| status := 500; json := JError "Server error occurred while retrieving books." |})
  end.

Definition post_swapRequests (e : Env) (body : gmap string JsValue) (s : State)
  : State * Response :=
  if negb (truthy (prop body "bookId")) ||
     typeof_neq (prop body "bookId") "string" ||
     negb (truthy (prop body "requestedById")) ||
     typeof_neq (prop body "requestedById") "string" ||
     negb (truthy (prop body "status")) ||
     typeof_neq (prop body "status") "string"
  then
    (s, {| status := 400;
           json := JError "Invalid input: Ensure 'bookId', 'requestedById', and 'status' are provided and are of the correct types." |})
  else
    let swapRequest := new_SwapRequest e (prop body "bookId")
                         (prop body "requestedById") (prop body "status") in
    ({| usersStorage := usersStorage s;
        booksStorage := booksStorage s;
        swapRequestsStorage :=
          <[swap_id swapRequest := swapRequest]> (swapRequestsStorage s);
        feedbackStorage := feedbackStorage s |},
     {| status := 201;
        json := JSwapRequest "Swap request created successfully" swapRequest |}).

Definition get_swapRequests `{TableLibrary} (s : State) : State * Response :=
  match values read_SwapRequest (swapRequestsStorage s) with
  | Some swapRequests =>
      (s, {| status := 200; json := JSwapRequests "Swap requests retrieved successfully" swapRequests |})
  | None =>
      (s, {| status := 500; json := JError "Server error occurred while retrieving swap requests." |})
  end.

Definition post_feedback (e : Env) (body : gmap string JsValue) (s : State)
  : State * Response :=
  if negb (truthy (prop body "userId")) ||
     typeof_neq (prop body "userId") "string" ||
     negb (truthy (prop body "swapRequestId")) ||
     typeof_neq (prop body "swapRequestId") "string" ||
     negb (truthy (prop body "rating")) ||
     typeof_neq (prop body "rating") "number" ||
     negb (truthy (prop body "comment")) ||
     typeof_neq (prop body "comment") "string"
  then
    (s, {| status := 400;
           json := JError "Invalid input: Ensure 'userId', 'swapRequestId', 'rating', and 'comment' are provided and are of the correct types." |})
  else
    let feedback := new_Feedback e (prop body "userId") (prop body "swapRequestId")
                                 (prop body "rating") (prop body "comment") in
    ({| usersStorage := usersStorage s;
        booksStorage := booksStorage s;
        swapRequestsStorage := swapRequestsStorage s;
        feedbackStorage := <[feedback_id feedback := feedback]> (feedbackStorage s) |},
     {| status := 201; json := JFeedback "Feedback created successfully" feedback |}).

Definition get_feedback `{TableLibrary} (s : State) : State * Response :=
  match values read_Feedback (feedbackStorage s) with
  | Some feedback =>
      (s, {| status := 200; json := JFeedbackList "Feedback retrieved successfully" feedback |})
  | None =>
      (s, {| status := 500; json := JError "Server error occurred while retrieving feedback." |})
  end.

(** Route dispatch. *)
Definition handle `{TableLibrary} (e : Env) (r : Request) (s : State)
  : State * Response :=
  match r with
  | PostUsers body => post_users e body s
  | GetUsers => get_users s
  | PostBooks body => post_books e body s
  | GetBooks => get_books s
  | PostSwapRequests body => post_swapRequests e body s
  | GetSwapRequests => get_swapRequests s
  | PostFeedback body => post_feedback e body s
  | GetFeedback => get_feedback s
  end.

End Part000.

(** ** Vocabulary shared by the two copies *)

Inductive Copy := SrcIndexCopy | Part000Copy.

Definition serve `{TableLibrary} (c : Copy)
  : Env -> Request -> State -> State * Response :=
  match c with
  | SrcIndexCopy => SrcIndex.handle
  | Part000Copy => Part000.handle
  end.

(** Requests are served one after the other, each with its own draw from the
    id generator and the clock. *)
Fixpoint run `{TableLibrary} (c : Copy) (s : State) (tr : list (Env * Request))
  : State * list Response :=
  match tr with
  | [] => (s, [])
  | (e, r) :: tr' =>
      let '(s1, resp) := serve c e r s in
      let '(s2, resps) := run c s1 tr' in
      (s2, resp :: resps)
  end.

Definition reachable `{TableLibrary} (c : Copy) (s : State) : Prop :=
  exists tr, (run c initial tr).1 = s.

Inductive Kind := KUser | KBook | KSwapRequest | KFeedback.

Global Instance Kind_eq_dec : EqDecision Kind.
Proof. solve_decision. Defined.

Inductive Entity :=
| EUser (u : User)
| EBook (b : Book)
| ESwapRequest (r : SwapRequest)
| EFeedback (f : Feedback).

Definition entity_id (x : Entity) : string :=
  match x with
  | EUser u => user_id u
  | EBook b => book_id b
  | ESwapRequest r => swap_id r
  | EFeedback f => feedback_id f
  end.

Definition entity_kind (x : Entity) : Kind :=
  match x with
  | EUser _ => KUser
  | EBook _ => KBook
  | ESwapRequest _ => KSwapRequest
  | EFeedback _ => KFeedback
  end.

Definition create_request (k : Kind) (body : gmap string JsValue) : Request :=
  match k with
  | KUser => PostUsers body
  | KBook => PostBooks body
  | KSwapRequest => PostSwapRequests body
  | KFeedback => PostFeedback body
  end.

Definition list_request (k : Kind) : Request :=
  match k with
  | KUser => GetUsers
  | KBook => GetBooks
  | KSwapRequest => GetSwapRequests
  | KFeedback => GetFeedback
  end.

(** The required fields of each create endpoint with the [typeof] each one is
    meant to have. *)
Definition field_types (k : Kind) : list (string * string) :=
  match k with
  | KUser => [("name", "string"); ("email", "string")]
  | KBook => [("userId", "string"); ("title", "string"); ("author", "string");
              ("description", "string")]
  | KSwapRequest => [("bookId", "string"); ("requestedById", "string");
                     ("status", "string")]
  | KFeedback => [("userId", "string"); ("swapRequestId", "string");
                  ("rating", "number"); ("comment", "string")]
  end.

Definition required_fields (k : Kind) : list string := (field_types k).*1.

(** One table seen as a table of entities. *)
Definition table (k : Kind) (s : State) : gmap string Entity :=
  match k with
  | KUser => EUser <$> usersStorage s
  | KBook => EBook <$> booksStorage s
  | KSwapRequest => ESwapRequest <$> swapRequestsStorage s
  | KFeedback => EFeedback <$> feedbackStorage s
  end.

(** The tables other than the one of kind [k] are the same in [s] and [s']. *)
Definition others_unchanged (k : Kind) (s s' : State) : Prop :=
  match k with
  | KUser => booksStorage s' = booksStorage s /\
             swapRequestsStorage s' = swapRequestsStorage s /\
             feedbackStorage s' = feedbackStorage s
  | KBook => usersStorage s' = usersStorage s /\
             swapRequestsStorage s' = swapRequestsStorage s /\
             feedbackStorage s' = feedbackStorage s
  | KSwapRequest => usersStorage s' = usersStorage s /\
                    booksStorage s' = booksStorage s /\
                    feedbackStorage s' = feedbackStorage s
  | KFeedback => usersStorage s' = usersStorage s /\
                 booksStorage s' = booksStorage s /\
                 swapRequestsStorage s' = swapRequestsStorage s
  end.

(** The entity a 201 response carries, and the array a 200 response carries. *)
Definition created (resp : Response) : option Entity :=
  match json resp with
  | JUser _ u => Some (EUser u)
  | JBook _ b => Some (EBook b)
  | JSwapRequest _ r => Some (ESwapRequest r)
  | JFeedback _ f => Some (EFeedback f)
  | _ => None
  end.

Definition listed (resp : Response) : list Entity :=
  match json resp with
  | JUsers _ l => EUser <$> l
  | JBooks _ l => EBook <$> l
  | JSwapRequests _ l => ESwapRequest <$> l
  | JFeedbackList _ l => EFeedback <$> l
  | _ => []
  end.

(** The entities of kind [k] created by a sequence of responses, oldest
    first. *)
Definition creations (k : Kind) (resps : list Response) : list Entity :=
  filter (fun x => entity_kind x = k) (omap created resps).

(** The fixed 400 response of each create endpoint. *)
Definition error_message (k : Kind) : string :=
  match k with
  | KUser => "Invalid input: Ensure 'name' and 'email' are provided and are strings."
  | KBook => "Invalid input: Ensure 'userId', 'title', 'author', and 'description' are provided and are of the correct types."
  | KSwapRequest => "Invalid input: Ensure 'bookId', 'requestedById', and 'status' are provided and are of the correct types."
  | KFeedback => "Invalid input: Ensure 'userId', 'swapRequestId', 'rating', and 'comment' are provided and are of the correct types."
  end.

Definition bad_request (k : Kind) : Response :=
  {| status := 400; json := JError (error_message k) |}.

(** [mentions msg w]: the word [w] occurs in [msg]. *)
Definition mentions (msg w : string) : bool :=
  match String.index 0 w msg with Some _ => true | None => false end.

(** The entity a create endpoint builds from a body, the state after storing
    it and the 201 response. *)
Definition construct (k : Kind) (e : Env) (body : gmap string JsValue) : Entity :=
  match k with
  | KUser => EUser (new_User e (prop body "name") (prop body "email"))
  | KBook => EBook (new_Book e (prop body "userId") (prop body "title")
                             (prop body "author") (prop body "description"))
  | KSwapRequest =>
      ESwapRequest (new_SwapRequest e (prop body "bookId")
                      (prop body "requestedById") (prop body "status"))
  | KFeedback =>
      EFeedback (new_Feedback e (prop body "userId") (prop body "swapRequestId")
                              (prop body "rating") (prop body "comment"))
  end.

Definition store (x : Entity) (s : State) : State :=
  match x with
  | EUser u =>
      {| usersStorage := <[user_id u := u]> (usersStorage s);
         booksStorage := booksStorage s;
         swapRequestsStorage := swapRequestsStorage s;
         feedbackStorage := feedbackStorage s |}
  | EBook b =>
      {| usersStorage := usersStorage s;
         booksStorage := <[book_id b := b]> (booksStorage s);
         swapRequestsStorage := swapRequestsStorage s;
         feedbackStorage := feedbackStorage s |}
  | ESwapRequest r =>
      {| usersStorage := usersStorage s;
         booksStorage := booksStorage s;
         swapRequestsStorage := <[swap_id r := r]> (swapRequestsStorage s);
         feedbackStorage := feedbackStorage s |}
  | EFeedback f =>
      {| usersStorage := usersStorage s;
         booksStorage := booksStorage s;
         swapRequestsStorage := swapRequestsStorage s;
         feedbackStorage := <[feedback_id f := f]> (feedbackStorage s) |}
  end.

Definition created_response (x : Entity) : Response :=
  {| status := 201;
     json := match x with
             | EUser u => JUser "User created successfully" u
             | EBook b => JBook "Book created successfully" b
             | ESwapRequest r => JSwapRequest "Swap request created successfully" r
             | EFeedback f => JFeedback "Feedback created successfully" f
             end |}.

(** The 200 response of a list endpoint for the values [insert] was given. *)
Definition listing (k : Kind) (s : State) : Response :=
  {| status := 200;
     json := match k with
             | KUser => JUsers "Users retrieved successfully" (stored (usersStorage s))
             | KBook => JBooks "Books retrieved successfully" (stored (booksStorage s))
             | KSwapRequest =>
                 JSwapRequests "Swap requests retrieved successfully"
                               (stored (swapRequestsStorage s))
             | KFeedback =>
                 JFeedbackList "Feedback retrieved successfully"
                               (stored (feedbackStorage s))
             end |}.

(** The fixed 500 response of each list endpoint. *)
Definition server_error (k : Kind) : Response :=
  {| status := 500;
     json := JError match k with
                    | KUser => "Server error occurred while retrieving users."
                    | KBook => "Server error occurred while retrieving books."
                    | KSwapRequest =>
                        "Server error occurred while retrieving swap requests."
                    | KFeedback => "Server error occurred while retrieving feedback."
                    end |}.

(** The response of a list endpoint. *)
Definition list_response `{TableLibrary} (k : Kind) (s : State) : Response :=
  match k with
  | KUser =>
      match values read_User (usersStorage s) with
      | Some l => {| status := 200; json := JUsers "Users retrieved successfully" l |}
      | None => server_error KUser
      end
  | KBook =>
      match values read_Book (booksStorage s) with
      | Some l => {| status := 200; json := JBooks "Books retrieved successfully" l |}
      | None => server_error KBook
      end
  | KSwapRequest =>
      match values read_SwapRequest (swapRequestsStorage s) with
      | Some l => {| status := 200;
                     json := JSwapRequests "Swap requests retrieved successfully" l |}
      | None => server_error KSwapRequest
      end
  | KFeedback =>
      match values read_Feedback (feedbackStorage s) with
      | Some l => {| status := 200;
                     json := JFeedbackList "Feedback retrieved successfully" l |}
      | None => server_error KFeedback
      end
  end.

(** An entity as it comes back from its table. *)
Definition read_entity `{TableLibrary} (x : Entity) : option Entity :=
  match x with
  | EUser u => EUser <$> read_User u
  | EBook b => EBook <$> read_Book b
  | ESwapRequest r => ESwapRequest <$> read_SwapRequest r
  | EFeedback f => EFeedback <$> read_Feedback f
  end.

(** A string, or a finite number other than the negative zero: the values
    whose JSON text reads back as the same value. *)
Definition plain (v : JsValue) : Prop :=
  match v with
  | JsString _ => True
  | JsNumber (S754_finite _ _ _) => True
  | JsNumber (S754_zero false) => True
  | _ => False
  end.

(** The table library hands plain values back as they were stored. *)
Definition preserves_plain `{TableLibrary} : Prop :=
  forall v, plain v -> read_back v = Some v.

(** A field passes the presence test of [validateRequestBody]. *)
Definition present (v : JsValue) : bool := neq_undefined v && neq_null v.

(** A field passes the per-route test for the [typeof] [t]. *)
Definition well_typed (v : JsValue) (t : string) : bool :=
  truthy v && String.eqb (typeof v) t.

(** The test a copy applies to one required field whose [typeof] is meant to
    be [t], and the bodies it lets through for the create endpoint of kind
    [k]. *)
Definition field_ok (c : Copy) (v : JsValue) (t : string) : bool :=
  match c with
  | SrcIndexCopy => present v
  | Part000Copy => well_typed v t
  end.

Definition accepts (c : Copy) (k : Kind) (body : gmap string JsValue) : bool :=
  forallb (fun ft => field_ok c (prop body ft.1) ft.2) (field_types k).

(** Every table is keyed by the [id] of the entity it holds. *)
Definition keyed (s : State) : Prop :=
  map_Forall (fun k u => k = user_id u) (usersStorage s) /\
  map_Forall (fun k b => k = book_id b) (booksStorage s) /\
  map_Forall (fun k r => k = swap_id r) (swapRequestsStorage s) /\
  map_Forall (fun k f => k = feedback_id f) (feedbackStorage s).

(** Ascending order of ids. *)
Definition id_le (x y : Entity) : Prop := String.le (entity_id x) (entity_id y).

(** The entries of a table paired with their ids. *)
Definition with_ids (l : list Entity) : list (string * Entity) :=
  (fun x => (entity_id x, x)) <$> l.

(** ** Concrete requests *)

Definition env1 : Env := {| uuidv4 := "id-1"; now := 1000 |}.
Definition env2 : Env := {| uuidv4 := "id-2"; now := 2000 |}.
Definition env3 : Env := {| uuidv4 := "id-3"; now := 3000 |}.

Definition ada_body : gmap string JsValue :=
  {[ "name" := JsString "Ada"; "email" := JsString "ada@example.com" ]}.

Definition book_without_description : gmap string JsValue :=
  {[ "userId" := JsString "u1"; "title" := JsString "T"; "author" := JsString "A" ]}.

Definition feedback_rating_five : gmap string JsValue :=
  {[ "userId" := JsString "u1"; "swapRequestId" := JsString "s1";
     "rating" := JsString "five"; "comment" := JsString "ok" ]}.

Definition feedback_rating_zero : gmap string JsValue :=
  {[ "userId" := JsString "u1"; "swapRequestId" := JsString "s1";
     "rating" := JsNumber (S754_zero false); "comment" := JsString "ok" ]}.

Definition user_empty_name : gmap string JsValue :=
  {[ "name" := JsString ""; "email" := JsString "ada@example.com" ]}.

(** The three users of the scenario, and the same body sent twice. *)
Definition three_users : list (Env * Request) :=
  [(env1, PostUsers ada_body); (env2, PostUsers ada_body); (env3, PostUsers ada_body)].

Definition ada_twice : list (Env * Request) :=
  [(env1, PostUsers ada_body); (env2, PostUsers ada_body)].


(** A double that is neither a zero nor NaN. *)
Definition nonzero_number (x : spec_float) : Prop :=
  match x with
  | S754_zero _ => False
  | S754_nan => False
  | _ => True
  end.

(** [v] is a non-empty string when [t] is "string", and a number that is
    neither zero nor NaN when [t] is "number". *)
Definition strict_value (t : string) (v : JsValue) : Prop :=
  match v with
  | JsString str => t = "string" /\ str ≠ ""
  | JsNumber x => t = "number" /\ nonzero_number x
  | _ => False
  end.

(** Ada's body with a field no endpoint asks for, and a second user. *)
Definition ada_body_admin : gmap string JsValue :=
  <["admin" := JsBoolean true]> ada_body.

Definition bob_body : gmap string JsValue :=
  {[ "name" := JsString "Bob"; "email" := JsString "bob@example.com" ]}.

(** The values an entity holds in its domain fields, each with the [typeof]
    its class declares. *)
Definition fields_of (x : Entity) : list (JsValue * string) :=
  match x with
  | EUser u => [(user_name u, "string"); (user_email u, "string")]
  | EBook b => [(book_userId b, "string"); (book_title b, "string");
                (book_author b, "string"); (book_description b, "string")]
  | ESwapRequest r => [(swap_bookId r, "string"); (swap_requestedById r, "string");
                       (swap_status r, "string")]
  | EFeedback f => [(feedback_userId f, "string"); (feedback_swapRequestId f, "string");
                    (feedback_rating f, "number"); (feedback_comment f, "string")]
  end.

(** Every field of [x] passes the test that copy [c] applies. *)
Definition validated (c : Copy) (x : Entity) : Prop :=
  Forall (fun vt => field_ok c vt.1 vt.2 = true) (fields_of x).

(** Every domain field of [x] holds a plain value. *)
Definition plain_entity (x : Entity) : Prop :=
  Forall (fun vt => plain vt.1) (fields_of x).

(** The ids the generator returns over a sequence of requests. *)
Definition draws (tr : list (Env * Request)) : list string := uuidv4 <$> tr.*1.

(** A table library for the examples: it hands every value back as it was
    stored, except an object of the shape [{__bigint__: "..."}], which its
    reviver turns into a BigInt, a value that no JSON response can carry. *)
Definition sample_library : TableLibrary :=
  {| read_back v :=
       match v with
       | JsObject [(key, JsString _)] =>
           if String.eqb key "__bigint__" then None else Some v
       | _ => Some v
       end |}.

(** A user whose name is an object, and Ada followed by Bob. *)
Definition user_object_name : gmap string JsValue :=
  {[ "name" := JsObject [("__bigint__", JsString "1")];
     "email" := JsString "ada@example.com" ]}.

Definition ada_then_bob : list (Env * Request) :=
  [(env1, PostUsers ada_body); (env2, PostUsers bob_body)].

(** ** The shape of every handler *)

Section Proofs.
Context {library : TableLibrary}.


Lemma serve_list (c : Copy) (e : Env) (k : Kind) (s : State) :
  serve c e (list_request k) s = (s, list_response k s).
Proof.
  destruct c, k; cbn;
    unfold SrcIndex.get_users, SrcIndex.get_books, SrcIndex.get_swapRequests,
      SrcIndex.get_feedback, Part000.get_users, Part000.get_books,
      Part000.get_swapRequests, Part000.get_feedback;
    match goal with |- context [values ?d ?m] => destruct (values d m) end;
    reflexivity.
Qed.

Lemma serve_create (c : Copy) (e : Env) (k : Kind) (body : gmap string JsValue)
    (s : State) :
  serve c e (create_request k body) s =
  if accepts c k body
  then (store (construct k e body) s, created_response (construct k e body))
  else (s, bad_request k).
Proof.
  destruct c, k; cbn -[prop];
    unfold SrcIndex.post_users, SrcIndex.post_books, SrcIndex.post_swapRequests,
      SrcIndex.post_feedback, Part000.post_users, Part000.post_books,
      Part000.post_swapRequests, Part000.post_feedback,
      SrcIndex.validateRequestBody, well_typed, present, typeof_neq; cbn -[prop];
    repeat match goal with
      | |- context [neq_undefined ?v] => destruct (neq_undefined v); cbn -[prop]
      | |- context [neq_null ?v] => destruct (neq_null v); cbn -[prop]
      | |- context [truthy ?v] => destruct (truthy v); cbn -[prop]
      | |- context [String.eqb ?a ?b] => destruct (String.eqb a b); cbn -[prop]
      end; reflexivity.
Qed.

(** ** Tables *)

Section Values.
Context {V : Type}.
Implicit Types m : gmap string V.

Lemma entries_Permutation m : entries m ≡ₚ map_to_list m.
Proof. apply merge_sort_Permutation. Qed.

Lemma entries_Sorted m : Sorted key_le (entries m).
Proof. apply Sorted_merge_sort, _. Qed.

Lemma stored_Permutation m : stored m ≡ₚ (map_to_list m).*2.
Proof. unfold stored. by rewrite entries_Permutation. Qed.

Lemma length_stored m : length (stored m) = size m.
Proof.
  rewrite stored_Permutation, length_fmap. apply length_map_to_list.
Qed.

Lemma elem_of_stored m v : v ∈ stored m <-> exists k, m !! k = Some v.
Proof.
  rewrite stored_Permutation, list_elem_of_fmap. split.
  - intros ([k w] & -> & Hin). exists k. by apply elem_of_map_to_list.
  - intros (k & Hk). exists (k, v). split; [done|]. by apply elem_of_map_to_list.
Qed.

(** In a table keyed by [key], the values come out in ascending [key]. *)
Lemma stored_Sorted (key : V -> string) m :
  map_Forall (fun k v => k = key v) m ->
  Sorted (fun v w => String.le (key v) (key w)) (stored m).
Proof.
  intros Hm. unfold stored.
  assert (Forall (fun p => p.1 = key p.2) (entries m)) as Hall.
  { rewrite entries_Permutation. apply map_Forall_to_list in Hm.
    eapply Forall_impl; [exact Hm|]. by intros [??]. }
  pose proof (entries_Sorted m) as Hs.
  induction Hs as [|p l Hl IH Hhd]; [constructor|].
  apply Forall_cons in Hall as [Hp Hall].
  csimpl. constructor; [by apply IH|].
  destruct Hhd as [|q l' Hpq]; csimpl; constructor.
  apply Forall_cons in Hall as [Hq _].
  unfold key_le in Hpq. by rewrite Hp, Hq in Hpq.
Qed.

(** When every stored value reads back as itself, [values()] returns what was
    stored. *)
Lemma values_readable (decode : V -> option V) m :
  (forall k v, m !! k = Some v -> decode v = Some v) ->
  values decode m = Some (stored m).
Proof.
  intros Hm. unfold values. apply mapM_Some, Forall2_same_length_lookup.
  split; [done|]. intros i v w Hv Hw.
  assert (v = w) as <- by congruence.
  apply list_elem_of_lookup_2, elem_of_stored in Hv as [k Hk]. by eapply Hm.
Qed.

(** When one stored value cannot be read back, [values()] throws. *)
Lemma values_unreadable (decode : V -> option V) m k v :
  m !! k = Some v -> decode v = None -> values decode m = None.
Proof.
  intros Hk Hv. unfold values. apply mapM_None, Exists_exists.
  exists v. split; [|done]. apply elem_of_stored. by exists k.
Qed.

End Values.

Lemma construct_id k e body : entity_id (construct k e body) = uuidv4 e.
Proof. by destruct k. Qed.

Lemma construct_kind k e body : entity_kind (construct k e body) = k.
Proof. by destruct k. Qed.

Lemma table_store x s :
  table (entity_kind x) (store x s) = <[entity_id x := x]> (table (entity_kind x) s).
Proof. destruct x; cbn; by rewrite fmap_insert. Qed.

Lemma table_store_ne x s k : k ≠ entity_kind x -> table k (store x s) = table k s.
Proof. destruct x, k; cbn; congruence. Qed.

Lemma others_unchanged_store x s : others_unchanged (entity_kind x) s (store x s).
Proof. by destruct x. Qed.

Lemma keyed_initial : keyed initial.
Proof. repeat split; apply map_Forall_empty. Qed.

Lemma keyed_store x s : keyed s -> keyed (store x s).
Proof.
  intros (Hu & Hb & Hr & Hf).
  destruct x; repeat split; cbn; try done; by apply map_Forall_insert_2.
Qed.

Lemma keyed_table k s key x : keyed s -> table k s !! key = Some x -> key = entity_id x.
Proof.
  intros (Hu & Hb & Hr & Hf) Hx. destruct k; cbn in Hx;
    apply lookup_fmap_Some in Hx as (y & <- & Hy); cbn; eauto.
Qed.

Lemma created_created_response x : created (created_response x) = Some x.
Proof. by destruct x. Qed.

Lemma listed_listing k s :
  listed (listing k s) ≡ₚ (map_to_list (table k s)).*2.
Proof.
  destruct k; cbn; rewrite stored_Permutation, map_to_list_fmap,
    <- !list_fmap_compose; apply reflexive_eq, list_fmap_ext; by intros ? [??].
Qed.

Lemma listing_Sorted k s : keyed s -> Sorted id_le (listed (listing k s)).
Proof.
  intros (Hu & Hb & Hr & Hf). destruct k; cbn;
    (eapply Sorted_fmap; [|by apply stored_Sorted]); done.
Qed.

Lemma status_list_response k s :
  status (list_response k s) = 200 \/ list_response k s = server_error k.
Proof.
  destruct k; cbn;
    match goal with |- context [values ?d ?m] => destruct (values d m) end; auto.
Qed.

(** A plain value, and an entity of plain values, comes back as it is from a
    library that preserves plain values. *)
Lemma read_entity_plain x : preserves_plain -> plain_entity x -> read_entity x = Some x.
Proof.
  intros Hlib Hx. unfold plain_entity in Hx.
  destruct x as [u|b|r|f]; destruct_and?; cbn in *;
    repeat (apply Forall_cons in Hx as [?%Hlib Hx]); cbn in *;
    unfold read_User, read_Book, read_SwapRequest, read_Feedback;
    repeat match goal with Hr : read_back _ = Some _ |- _ => rewrite Hr; clear Hr end;
    cbn; [by destruct u|by destruct b|by destruct r|by destruct f].
Qed.

(** When every entity of a table reads back as itself, the list endpoint
    answers 200 with what was stored. *)
Lemma list_response_readable k s :
  (forall key x, table k s !! key = Some x -> read_entity x = Some x) ->
  list_response k s = listing k s.
Proof.
  intros Hs. destruct k; cbn; rewrite values_readable; try done; intros key v Hv.
  - specialize (Hs key (EUser v)). cbn in Hs. rewrite lookup_fmap, Hv in Hs.
    specialize (Hs eq_refl). destruct (read_User v); by simplify_eq/=.
  - specialize (Hs key (EBook v)). cbn in Hs. rewrite lookup_fmap, Hv in Hs.
    specialize (Hs eq_refl). destruct (read_Book v); by simplify_eq/=.
  - specialize (Hs key (ESwapRequest v)). cbn in Hs. rewrite lookup_fmap, Hv in Hs.
    specialize (Hs eq_refl). destruct (read_SwapRequest v); by simplify_eq/=.
  - specialize (Hs key (EFeedback v)). cbn in Hs. rewrite lookup_fmap, Hv in Hs.
    specialize (Hs eq_refl). destruct (read_Feedback v); by simplify_eq/=.
Qed.

(** A request is a create or a list request of some kind. *)
Lemma request_cases (r : Request) :
  (exists k body, r = create_request k body) \/ (exists k, r = list_request k).
Proof.
  destruct r as [b| |b| |b| |b| ].
  - left. by exists KUser, b.
  - right. by exists KUser.
  - left. by exists KBook, b.
  - right. by exists KBook.
  - left. by exists KSwapRequest, b.
  - right. by exists KSwapRequest.
  - left. by exists KFeedback, b.
  - right. by exists KFeedback.
Qed.

(** One step of a server preserves [keyed]. *)
Lemma serve_keyed c e r s : keyed s -> keyed (serve c e r s).1.
Proof.
  intros Hs. destruct (request_cases r) as [(k & body & ->)|(k & ->)].
  - rewrite serve_create. destruct (accepts c k body); [|exact Hs].
    by apply keyed_store.
  - by rewrite serve_list.
Qed.

(** ** Runs *)

Lemma run_cons c s e r tr :
  run c s ((e, r) :: tr) =
  ((run c (serve c e r s).1 tr).1,
   (serve c e r s).2 :: (run c (serve c e r s).1 tr).2).
Proof.
  cbn [run]. destruct (serve c e r s) as [s1 resp]. cbn [fst snd].
  by destruct (run c s1 tr).
Qed.

Lemma run_keyed c tr : forall s, keyed s -> keyed (run c s tr).1.
Proof.
  induction tr as [|[e r] tr IH]; intros s Hs; [done|].
  rewrite run_cons. cbn [fst]. by apply IH, serve_keyed.
Qed.

Lemma creations_cons_None k resp resps :
  created resp = None -> creations k (resp :: resps) = creations k resps.
Proof. unfold creations. cbn. by intros ->. Qed.

Lemma creations_cons_Some k resp resps x :
  created resp = Some x ->
  creations k (resp :: resps) =
  if decide (entity_kind x = k) then x :: creations k resps else creations k resps.
Proof. unfold creations. cbn. intros ->. by rewrite filter_cons. Qed.

Lemma creations_app k l1 l2 : creations k (l1 ++ l2) = creations k l1 ++ creations k l2.
Proof. unfold creations. by rewrite omap_app, filter_app. Qed.

Lemma created_list_response k s : created (list_response k s) = None.
Proof.
  destruct k; cbn;
    match goal with |- context [values ?d ?m] => destruct (values d m) end; done.
Qed.

Lemma created_bad_request k : created (bad_request k) = None.
Proof. done. Qed.

Lemma with_ids_fst l : (with_ids l).*1 = entity_id <$> l.
Proof. unfold with_ids. rewrite <- list_fmap_compose. done. Qed.

Lemma with_ids_snd l : (with_ids l).*2 = l.
Proof.
  unfold with_ids. rewrite <- list_fmap_compose. rewrite <- (list_fmap_id l) at 2.
  done.
Qed.

Lemma table_fresh k s (L : list Entity) key :
  map_to_list (table k s) ≡ₚ with_ids L ->
  key ∉ entity_id <$> L ->
  table k s !! key = None.
Proof.
  intros Hperm Hkey. apply not_elem_of_dom. rewrite <- with_ids_fst, <- Hperm in Hkey.
  intros Hdom. apply Hkey. apply elem_of_dom in Hdom as [x Hx].
  apply list_elem_of_fmap. exists (key, x). split; [done|].
  by apply elem_of_map_to_list.
Qed.

(** The table of kind [k] holds what the log of creations says, as long as
    the ids that were drawn for that table never repeat. *)
Lemma run_log c k tr : forall s (L : list Entity),
  map_to_list (table k s) ≡ₚ with_ids L ->
  NoDup (entity_id <$> (L ++ creations k (run c s tr).2)) ->
  map_to_list (table k (run c s tr).1) ≡ₚ with_ids (L ++ creations k (run c s tr).2).
Proof.
  induction tr as [|[e r] tr IH]; intros s L Hs Hnd.
  { cbn. unfold creations. cbn. by rewrite app_nil_r. }
  rewrite run_cons in Hnd |- *. cbn [fst snd] in Hnd |- *.
  destruct (request_cases r) as [(k' & body & ->)|(k' & ->)].
  - rewrite serve_create in Hnd |- *. destruct (accepts c k' body); cbn [fst snd] in *.
    + set (x := construct k' e body) in *.
      rewrite (creations_cons_Some _ _ _ x) in Hnd |- *
        by apply created_created_response.
      destruct (decide (entity_kind x = k)) as [Hk|Hk].
      * rewrite cons_middle, (assoc_L (++)) in Hnd |- *. apply IH; [|done].
        rewrite <- Hk, table_store, Hk.
        rewrite map_to_list_insert.
        -- unfold with_ids in *. rewrite fmap_app. cbn. rewrite Hs.
           by rewrite Permutation_cons_append.
        -- eapply table_fresh; [exact Hs|].
           rewrite <- (assoc_L (++)), fmap_app in Hnd.
           apply NoDup_app in Hnd as (_ & Hnd & _). intros Hin.
           apply (Hnd _ Hin). cbn. left.
      * apply IH; [|done]. by rewrite table_store_ne.
    + rewrite creations_cons_None in Hnd |- * by apply created_bad_request.
      by apply IH.
  - rewrite serve_list in Hnd |- *. cbn [fst snd] in *.
    rewrite creations_cons_None in Hnd |- * by apply created_list_response.
    by apply IH.
Qed.

Lemma table_initial k : table k initial = ∅.
Proof. destruct k; cbn; apply fmap_empty. Qed.

(** From the empty tables. *)
Lemma run_log_initial c k tr :
  NoDup (entity_id <$> creations k (run c initial tr).2) ->
  map_to_list (table k (run c initial tr).1) ≡ₚ with_ids (creations k (run c initial tr).2).
Proof.
  intros Hnd. apply (run_log c k tr initial []); [|done].
  by rewrite table_initial, map_to_list_empty.
Qed.

(** ** Validation *)

(** None of the fields the routes read is a member of [Object.prototype]. *)
Lemma required_not_inherited k f : f ∈ required_fields k -> Object_prototype f = JsUndefined.
Proof.
  destruct k; cbn; intros Hin;
    repeat (apply elem_of_cons in Hin as [->|Hin]; [reflexivity|]);
    by apply elem_of_nil in Hin.
Qed.

Lemma prop_missing (body : gmap string JsValue) k f :
  f ∈ required_fields k -> body !! f = None -> prop body f = JsUndefined.
Proof. unfold prop. intros Hf ->. by eapply required_not_inherited. Qed.

Lemma prop_Some (body : gmap string JsValue) f v : body !! f = Some v -> prop body f = v.
Proof. unfold prop. by intros ->. Qed.

(** One field that fails its test is enough for the request to be refused. *)
Lemma accepts_false c k body f t :
  (f, t) ∈ field_types k -> field_ok c (prop body f) t = false -> accepts c k body = false.
Proof.
  intros Hin Hf. apply not_true_iff_false. unfold accepts. intros Hall.
  rewrite forallb_forall in Hall. apply list_elem_of_In in Hin.
  specialize (Hall _ Hin). cbn in Hall. congruence.
Qed.

Lemma accepts_true c k body :
  (forall f t, (f, t) ∈ field_types k -> field_ok c (prop body f) t = true) ->
  accepts c k body = true.
Proof.
  intros Hall. unfold accepts. apply forallb_forall. intros [f t] Hin.
  apply Hall. by apply list_elem_of_In.
Qed.

Lemma required_field_type k f : f ∈ required_fields k -> exists t, (f, t) ∈ field_types k.
Proof.
  unfold required_fields. intros ((f' & t) & -> & Hin)%list_elem_of_fmap. by exists t.
Qed.

(** An absent or [null] field fails the test of either copy. *)
Lemma field_ok_absent c v t : v = JsUndefined \/ v = JsNull -> field_ok c v t = false.
Proof. by intros [-> | ->]; destruct c. Qed.

(** The per-route test refuses a value of another [typeof]. *)
Lemma well_typed_typeof v t : well_typed v t = true -> typeof v = t.
Proof. unfold well_typed. intros [_ Ht%String.eqb_eq]%andb_prop. exact Ht. Qed.

(** The presence test lets through every value read from JSON other than
    [null]. *)
Lemma present_typed v t : typeof v = t -> t = "string" \/ t = "number" -> present v = true.
Proof. destruct v; cbn; intros <- [?|?]; done. Qed.

Lemma field_types_cases k f t : (f, t) ∈ field_types k -> t = "string" \/ t = "number".
Proof.
  destruct k; cbn; intros Hin;
    repeat (apply elem_of_cons in Hin as [[= -> ->]|Hin]; [auto|]);
    by apply elem_of_nil in Hin.
Qed.

Lemma error_message_mentions k :
  Forall (fun w => mentions (error_message k) w = true) (required_fields k).
Proof. destruct k; repeat constructor. Qed.

(** ** Claims *)

(** C2. A create request that lacks one of the required fields of its
    endpoint, or carries it as [null] or [undefined], is answered 400 with the
    endpoint's fixed message, which names every required field; no table
    changes, so every later list call answers as it would have before. *)
Theorem C2_missing_field_rejected (c : Copy) (k : Kind) (body : gmap string JsValue)
    (f : string) (e : Env) (s : State) :
  f ∈ required_fields k ->
  prop body f = JsUndefined \/ prop body f = JsNull ->
  serve c e (create_request k body) s = (s, bad_request k) /\
  status (bad_request k) = 400 /\
  json (bad_request k) = JError (error_message k) /\
  Forall (fun w => mentions (error_message k) w = true) (required_fields k) /\
  forall e' k',
    serve c e' (list_request k') (serve c e (create_request k body) s).1 =
    serve c e' (list_request k') s.
Proof.
  intros Hf Habs. destruct (required_field_type k f Hf) as [t Ht].
  assert (serve c e (create_request k body) s = (s, bad_request k)) as Hs.
  { rewrite serve_create, (accepts_false c k body f t); auto using field_ok_absent. }
  rewrite Hs. repeat split; auto using error_message_mentions.
Qed.

(** C8. A list endpoint leaves the four tables as they are, whether it
    answers 200 or, when the table cannot be read back, 500: asking twice
    gives the same answer, and no sequence of list calls changes the
    state. *)
Theorem C8_list_is_a_pure_read (c : Copy) (k : Kind) (e e' : Env) (s : State)
    (tr : list (Env * Kind)) :
  (serve c e (list_request k) s).1 = s /\
  (status (serve c e (list_request k) s).2 = 200 \/
   (serve c e (list_request k) s).2 = server_error k) /\
  (serve c e' (list_request k) (serve c e (list_request k) s).1).2 =
    (serve c e (list_request k) s).2 /\
  (run c s (prod_map id list_request <$> tr)).1 = s.
Proof.
  rewrite !serve_list. cbn [fst snd].
  split; [done|]. split; [apply status_list_response|]. split; [done|].
  induction tr as [|[e0 k0] tr IH]; [done|].
  rewrite fmap_cons. unfold prod_map at 1. cbn [fst snd id].
  rewrite run_cons, serve_list. exact IH.
Qed.

Lemma table_store_construct c k e body s :
  accepts c k body = true ->
  table k (serve c e (create_request k body) s).1 =
  <[uuidv4 e := construct k e body]> (table k s).
Proof.
  intros Hacc. rewrite serve_create, Hacc. cbn [fst].
  pose proof (table_store (construct k e body) s) as H.
  by rewrite construct_kind, construct_id in H.
Qed.

Lemma others_unchanged_construct k e body s :
  others_unchanged k s (store (construct k e body) s).
Proof.
  pose proof (others_unchanged_store (construct k e body) s) as H.
  by rewrite construct_kind in H.
Qed.

(** C9. A create request is answered 201 or 400.  When it is answered 201
    the table of its kind becomes the old table with the new entity inserted
    under its own id, and the three other tables are the same as before; the
    table gains exactly one entry as long as the id drawn is not yet one of
    its keys.  When it is answered 400 the state is the same as before. *)
Theorem C9_create_mutates_one_table (c : Copy) (k : Kind) (e : Env)
    (body : gmap string JsValue) (s : State) :
  (status (serve c e (create_request k body) s).2 = 201 \/
   status (serve c e (create_request k body) s).2 = 400) /\
  (status (serve c e (create_request k body) s).2 = 201 ->
   exists x,
     created (serve c e (create_request k body) s).2 = Some x /\
     entity_kind x = k /\ entity_id x = uuidv4 e /\
     table k (serve c e (create_request k body) s).1 = <[entity_id x := x]> (table k s) /\
     others_unchanged k s (serve c e (create_request k body) s).1 /\
     (table k s !! uuidv4 e = None ->
      size (table k (serve c e (create_request k body) s).1) = S (size (table k s)))) /\
  (status (serve c e (create_request k body) s).2 = 400 ->
   (serve c e (create_request k body) s).1 = s /\
   created (serve c e (create_request k body) s).2 = None).
Proof.
  destruct (accepts c k body) eqn:Hacc.
  - pose proof (table_store_construct c k e body s Hacc) as Ht.
    rewrite serve_create, Hacc in Ht |- *. cbn [fst snd] in Ht |- *.
    split; [by left|]. split; [|done]. intros _.
    exists (construct k e body). rewrite construct_id, construct_kind.
    split; [apply created_created_response|]. split; [done|]. split; [done|].
    split; [exact Ht|]. split; [apply others_unchanged_construct|].
    intros Hfresh. rewrite Ht. by apply map_size_insert_None.
  - rewrite serve_create, Hacc. cbn [fst snd].
    split; [by right|]. split; [done|]. intros _. by split.
Qed.

(** C10. In every state the server can reach from the empty tables, each of
    the four tables files every entity under the entity's own [id], and every
    endpoint keeps it so. *)
Theorem C10_tables_keyed_by_id (c : Copy) (s : State) :
  reachable c s ->
  keyed s /\
  (forall k key x, table k s !! key = Some x -> key = entity_id x) /\
  (forall e r, keyed (serve c e r s).1).
Proof.
  intros [tr <-].
  assert (keyed (run c initial tr).1) as H by apply run_keyed, keyed_initial.
  split; [exact H|]. split.
  - intros k key x. by apply keyed_table.
  - intros e r. by apply serve_keyed.
Qed.

(** C5. A POST /users whose [name] and [email] are non-empty strings is
    answered 201 with a user that carries the two strings as they were sent,
    the id the generator returned (non-empty when the generator's string is)
    and the time of the clock; that user is what the table stores under the
    id. *)
Theorem C5_user_created_verbatim (c : Copy) (e : Env) (body : gmap string JsValue)
    (s : State) (n m : string) :
  body !! "name" = Some (JsString n) ->
  body !! "email" = Some (JsString m) ->
  n ≠ "" -> m ≠ "" -> uuidv4 e ≠ "" ->
  exists u,
    (serve c e (PostUsers body) s).2 =
      {| status := 201; json := JUser "User created successfully" u |} /\
    user_name u = JsString n /\
    user_email u = JsString m /\
    user_id u = uuidv4 e /\ user_id u ≠ "" /\
    user_createdAt u = now e /\
    usersStorage (serve c e (PostUsers body) s).1 !! user_id u = Some u.
Proof.
  intros Hn Hm Hne Hme Hid.
  apply prop_Some in Hn, Hm.
  assert (accepts c KUser body = true) as Hacc.
  { apply accepts_true. intros f t Hin. cbn in Hin.
    apply String.eqb_neq in Hne, Hme.
    repeat (apply elem_of_cons in Hin as [[= -> ->]|Hin];
            [destruct c; cbn; unfold present, well_typed;
             rewrite ?Hn, ?Hm; cbn; by rewrite ?Hne, ?Hme|]).
    by apply elem_of_nil in Hin. }
  change (PostUsers body) with (create_request KUser body).
  rewrite serve_create, Hacc. cbn [fst snd construct].
  exists (new_User e (prop body "name") (prop body "email")).
  rewrite Hn, Hm. cbn. repeat split; try done. apply lookup_insert_eq.
Qed.

(** The per-route copy refuses a required field of another [typeof]. *)
Lemma part000_rejects_wrong_type k body f t e s :
  (f, t) ∈ field_types k -> typeof (prop body f) ≠ t ->
  serve Part000Copy e (create_request k body) s = (s, bad_request k).
Proof.
  intros Hin Hty. rewrite serve_create, (accepts_false Part000Copy k body f t); auto.
  apply not_true_iff_false. intros H. by apply Hty, well_typed_typeof.
Qed.

(** Which feedback either copy lets through: non-empty strings and a number
    that, for the per-route copy, is truthy. *)
Lemma feedback_accepted c e s (body : gmap string JsValue) (u r m : string)
    (x : spec_float) :
  body !! "userId" = Some (JsString u) ->
  body !! "swapRequestId" = Some (JsString r) ->
  body !! "rating" = Some (JsNumber x) ->
  body !! "comment" = Some (JsString m) ->
  u ≠ "" -> r ≠ "" -> m ≠ "" ->
  (c = Part000Copy -> truthy (JsNumber x) = true) ->
  serve c e (PostFeedback body) s =
  (store (construct KFeedback e body) s, created_response (construct KFeedback e body)).
Proof.
  intros Hu Hr Hx Hm Hu' Hr' Hm' Hc.
  apply prop_Some in Hu, Hr, Hx, Hm. apply String.eqb_neq in Hu', Hr', Hm'.
  change (PostFeedback body) with (create_request KFeedback body).
  rewrite serve_create, accepts_true; [done|].
  intros f t Hin. cbn in Hin.
  repeat (apply elem_of_cons in Hin as [[= -> ->]|Hin];
          [destruct c; cbn -[truthy]; unfold present, well_typed;
           rewrite ?Hu, ?Hr, ?Hx, ?Hm, ?Hc by done; cbn;
           by rewrite ?Hu', ?Hr', ?Hm'|]).
  by apply elem_of_nil in Hin.
Qed.

(** C1. POST /feedback with [rating] sent as the string "five": the handler of
    [src/index.ts] answers 201 and stores a feedback whose rating is that
    string, where the per-route copy answers 400 and stores nothing. *)
Theorem C1_string_rating_is_stored (e : Env) (s : State) :
  SrcIndex.post_feedback e feedback_rating_five s =
    (store (EFeedback (new_Feedback e (JsString "u1") (JsString "s1")
                         (JsString "five") (JsString "ok"))) s,
     {| status := 201;
        json := JFeedback "Feedback created successfully"
                  (new_Feedback e (JsString "u1") (JsString "s1")
                     (JsString "five") (JsString "ok")) |}) /\
  typeof (prop feedback_rating_five "rating") = "string" /\
  Part000.post_feedback e feedback_rating_five s = (s, bad_request KFeedback).
Proof. repeat split. Qed.

(** C4. POST /feedback with [rating] sent as the number 0: the per-route copy
    answers 400 and stores nothing, where the handler of [src/index.ts]
    answers 201 and stores the feedback. *)
Theorem C4_rating_zero_is_refused (e : Env) (s : State) :
  typeof (prop feedback_rating_zero "rating") = "number" /\
  Part000.post_feedback e feedback_rating_zero s = (s, bad_request KFeedback) /\
  status (bad_request KFeedback) = 400 /\
  SrcIndex.post_feedback e feedback_rating_zero s =
    (store (construct KFeedback e feedback_rating_zero) s,
     created_response (construct KFeedback e feedback_rating_zero)).
Proof. repeat split. Qed.

(** C3. POST /users with [name] sent as the empty string: the handler of
    [src/index.ts] answers 201 and stores a user whose name is the empty
    string, where the per-route copy answers 400 and stores nothing. *)
Theorem C3_empty_name_is_stored (e : Env) (s : State) :
  prop user_empty_name "name" = JsString "" /\
  SrcIndex.post_users e user_empty_name s =
    (store (EUser (new_User e (JsString "") (JsString "ada@example.com"))) s,
     {| status := 201;
        json := JUser "User created successfully"
                  (new_User e (JsString "") (JsString "ada@example.com")) |}) /\
  Part000.post_users e user_empty_name s = (s, bad_request KUser).
Proof. repeat split. Qed.

(** ** Further properties of the handlers *)

Lemma present_iff v : present v = true <-> v ≠ JsNull /\ v ≠ JsUndefined.
Proof. destruct v; cbn; split; try done; intros [??]; done. Qed.


Lemma well_typed_strict v t :
  t = "string" \/ t = "number" -> (well_typed v t = true <-> strict_value t v).
Proof.
  unfold well_typed. intros [-> | ->]; destruct v as [| |b|x|str|xs|fs|]; cbn;
    try destruct b; try destruct x; cbn;
    try (split; [done|]; (tauto || (intros [H _]; discriminate H))).
  - rewrite andb_true_r, negb_true_iff, String.eqb_neq. tauto.
  - rewrite andb_false_r. split; [done|]. intros [H _]. discriminate H.
Qed.

Lemma well_typed_present v t : well_typed v t = true -> present v = true.
Proof. unfold well_typed. by destruct v. Qed.

Lemma status_create c k e body s :
  status (serve c e (create_request k body) s).2 = 201 <-> accepts c k body = true.
Proof. rewrite serve_create. by destruct (accepts c k body). Qed.

Lemma accepts_iff c k body :
  accepts c k body = true <->
  forall f t, (f, t) ∈ field_types k -> field_ok c (prop body f) t = true.
Proof.
  split; [|apply accepts_true]. unfold accepts. rewrite forallb_forall.
  intros Hall f t Hin. apply list_elem_of_In in Hin. apply (Hall _ Hin).
Qed.


(** X3. A create endpoint of the per-route copy answers 201 exactly when
    every required string field holds a non-empty string and, for feedback,
    the rating holds a number that is neither zero nor NaN; otherwise it
    answers 400. *)
Theorem X3_part000_created_iff_strict (k : Kind) (e : Env)
    (body : gmap string JsValue) (s : State) :
  (status (Part000.handle e (create_request k body) s).2 = 201 <->
   forall f t, (f, t) ∈ field_types k -> strict_value t (prop body f)) /\
  (status (Part000.handle e (create_request k body) s).2 = 201 \/
   Part000.handle e (create_request k body) s = (s, bad_request k)).
Proof.
  change Part000.handle with (serve Part000Copy). split.
  - rewrite status_create, accepts_iff. split.
    + intros Hall f t Hin. apply well_typed_strict; [by eapply field_types_cases|].
      apply (Hall f t Hin).
    + intros Hall f t Hin. cbn. apply well_typed_strict; [by eapply field_types_cases|].
      by apply Hall.
  - rewrite serve_create. destruct (accepts Part000Copy k body); [by left|by right].
Qed.

Lemma accepts_part000_srcindex k body :
  accepts Part000Copy k body = true -> accepts SrcIndexCopy k body = true.
Proof.
  rewrite !accepts_iff. intros Hall f t Hin. cbn.
  eapply well_typed_present, (Hall f t Hin).
Qed.

(** X4. The two copies differ only in what they refuse: a request that the
    per-route copy does not answer with 400 is served by [src/index.ts] with
    the same response and the same tables, and a request that [src/index.ts]
    answers with 400 is answered by the per-route copy in the same way. *)
Theorem X4_copies_agree (e : Env) (r : Request) (s : State) :
  (status (Part000.handle e r s).2 ≠ 400 ->
   SrcIndex.handle e r s = Part000.handle e r s) /\
  (status (SrcIndex.handle e r s).2 = 400 ->
   Part000.handle e r s = SrcIndex.handle e r s).
Proof.
  change Part000.handle with (serve Part000Copy).
  change SrcIndex.handle with (serve SrcIndexCopy).
  destruct (request_cases r) as [(k & body & ->)|(k & ->)].
  - rewrite !serve_create.
    destruct (accepts Part000Copy k body) eqn:Hp.
    + rewrite (accepts_part000_srcindex k body Hp). by split.
    + destruct (accepts SrcIndexCopy k body); cbn; split; done.
  - rewrite !serve_list. by split.
Qed.

Lemma prop_agree (body1 body2 : gmap string JsValue) f :
  body1 !! f = body2 !! f -> prop body1 f = prop body2 f.
Proof. unfold prop. by intros ->. Qed.

Lemma field_required k f t : (f, t) ∈ field_types k -> f ∈ required_fields k.
Proof. intros Hin. unfold required_fields. apply list_elem_of_fmap. by exists (f, t). Qed.

(** X5. A create endpoint reads nothing of the body but its required fields:
    two bodies that agree on them are served alike, whatever else they
    carry. *)
Theorem X5_create_reads_required_fields_only (c : Copy) (k : Kind) (e : Env)
    (body1 body2 : gmap string JsValue) (s : State) :
  (forall f, f ∈ required_fields k -> body1 !! f = body2 !! f) ->
  serve c e (create_request k body1) s = serve c e (create_request k body2) s.
Proof.
  intros Hagree.
  assert (forall f, f ∈ required_fields k -> prop body1 f = prop body2 f) as Hp
    by (intros f Hf; by apply prop_agree, Hagree).
  assert (accepts c k body1 = accepts c k body2) as Hacc.
  { apply Bool.eq_true_iff_eq. rewrite !accepts_iff.
    split; intros Hall f t Hin; specialize (Hall f t Hin);
      [rewrite <- Hp|rewrite Hp]; eauto using field_required. }
  assert (construct k e body1 = construct k e body2) as Hcon.
  { destruct k; cbn;
      rewrite !Hp by (apply (bool_decide_unpack _); vm_compute; exact I); done. }
  by rewrite !serve_create, Hacc, Hcon.
Qed.

(** X6. A create endpoint never reads a table: the response to a create
    request is the same in every state, so no reference to another entity is
    checked and no duplicate is detected. *)
Theorem X6_create_ignores_tables (c : Copy) (k : Kind) (e : Env)
    (body : gmap string JsValue) (s s' : State) :
  (serve c e (create_request k body) s).2 = (serve c e (create_request k body) s').2.
Proof. rewrite !serve_create. by destruct (accepts c k body). Qed.

Lemma serve_table c e r s k :
  table k (serve c e r s).1 = table k s \/
  exists x, created (serve c e r s).2 = Some x /\ entity_kind x = k /\
            entity_id x = uuidv4 e /\
            table k (serve c e r s).1 = <[uuidv4 e := x]> (table k s).
Proof.
  destruct (request_cases r) as [(k' & body & ->)|(k' & ->)].
  - destruct (accepts c k' body) eqn:Hacc.
    + destruct (decide (k = k')) as [->|Hne].
      * right. exists (construct k' e body).
        rewrite (table_store_construct c k' e body s Hacc).
        rewrite serve_create, Hacc. cbn [snd].
        by rewrite created_created_response, construct_kind, construct_id.
      * left. rewrite serve_create, Hacc. cbn [fst].
        apply table_store_ne. by rewrite construct_kind.
    + left. by rewrite serve_create, Hacc.
  - left. by rewrite serve_list.
Qed.

(** X7. No request removes a key from a table: over any run every key stays
    a key, so no table ever shrinks. *)
Theorem X7_tables_only_grow (c : Copy) (tr : list (Env * Request)) (s : State)
    (k : Kind) :
  dom (table k s) ⊆ dom (table k (run c s tr).1) /\
  (size (table k s) <= size (table k (run c s tr).1))%nat.
Proof.
  assert (dom (table k s) ⊆ dom (table k (run c s tr).1)) as Hdom.
  { revert s. induction tr as [|[e r] tr IH]; intros s; [done|].
    rewrite run_cons. cbn [fst]. etrans; [|apply IH].
    destruct (serve_table c e r s k) as [->|(x & _ & _ & _ & ->)]; [done|].
    apply dom_insert_subseteq. }
  split; [exact Hdom|]. rewrite <- !size_dom. by apply subseteq_size.
Qed.

Lemma serve_lookup_ne c e r s k key :
  uuidv4 e ≠ key -> table k (serve c e r s).1 !! key = table k s !! key.
Proof.
  intros Hne. destruct (serve_table c e r s k) as [->|(x & _ & _ & _ & ->)]; [done|].
  by apply lookup_insert_ne.
Qed.

Lemma run_lookup_survives c tr : forall s k key x,
  table k s !! key = Some x ->
  Forall (fun er => uuidv4 er.1 ≠ key) tr ->
  table k (run c s tr).1 !! key = Some x.
Proof.
  induction tr as [|[e r] tr IH]; intros s k key x Hx Hall; [done|].
  apply Forall_cons in Hall as [He Hall]. rewrite run_cons. cbn [fst].
  apply IH; [|done]. by rewrite serve_lookup_ne.
Qed.

(** X8. An entry of a table is left as it is by every request for which the
    generator draws another id than the entry's key. *)
Theorem X8_entry_survives (c : Copy) (tr : list (Env * Request)) (s : State)
    (k : Kind) (key : string) (x : Entity) :
  table k s !! key = Some x ->
  Forall (fun er => uuidv4 er.1 ≠ key) tr ->
  table k (run c s tr).1 !! key = Some x.
Proof. apply run_lookup_survives. Qed.

(** X9. No handler looks whether the generated id is already a key: when it
    is, a create that is answered 201 replaces the entry stored under that id
    and the table keeps its size. *)
Theorem X9_id_collision_overwrites (c : Copy) (k : Kind) (e : Env)
    (body : gmap string JsValue) (s : State) (old : Entity) :
  table k s !! uuidv4 e = Some old ->
  status (serve c e (create_request k body) s).2 = 201 ->
  table k (serve c e (create_request k body) s).1 !! uuidv4 e =
    Some (construct k e body) /\
  size (table k (serve c e (create_request k body) s).1) = size (table k s) /\
  dom (table k (serve c e (create_request k body) s).1) = dom (table k s).
Proof.
  intros Hold Hacc%status_create.
  rewrite (table_store_construct c k e body s Hacc).
  split; [apply lookup_insert_eq|]. split.
  - by eapply map_size_insert_Some.
  - by eapply dom_insert_lookup_L.
Qed.

Lemma store_comm x y s :
  entity_id x ≠ entity_id y -> store x (store y s) = store y (store x s).
Proof.
  intros Hne. destruct x, y; cbn in *; f_equal; by apply insert_insert_ne.
Qed.

(** X10. Two requests for which the generator draws different ids leave the
    same tables behind in either order. *)
Theorem X10_requests_commute (c : Copy) (e1 e2 : Env) (r1 r2 : Request) (s : State) :
  uuidv4 e1 ≠ uuidv4 e2 ->
  (run c s [(e1, r1); (e2, r2)]).1 = (run c s [(e2, r2); (e1, r1)]).1.
Proof.
  intros Hne. rewrite !run_cons. cbn [run fst snd].
  destruct (request_cases r1) as [(k1 & b1 & ->)|(k1 & ->)];
    destruct (request_cases r2) as [(k2 & b2 & ->)|(k2 & ->)];
    rewrite ?serve_create, ?serve_list;
    repeat (match goal with
            | |- context [accepts ?c ?k ?b] => destruct (accepts c k b)
            end; cbn [fst snd]; rewrite ?serve_create, ?serve_list);
    cbn [fst snd]; try done.
  apply store_comm. by rewrite !construct_id.
Qed.

Lemma run_sound c k tr : forall s (L : list Entity),
  (forall key x, table k s !! key = Some x -> x ∈ L) ->
  forall key x, table k (run c s tr).1 !! key = Some x ->
                x ∈ L ++ creations k (run c s tr).2.
Proof.
  induction tr as [|[e r] tr IH]; intros s L Hs key x Hx.
  { cbn in Hx. apply elem_of_app. left. by eapply Hs. }
  rewrite run_cons in Hx |- *. cbn [fst snd] in Hx |- *.
  destruct (serve_table c e r s k) as [Heq|(y & Hy & Hk & _ & Heq)].
  - assert (x ∈ L ++ creations k (run c (serve c e r s).1 tr).2) as Hin.
    { eapply IH; [|exact Hx]. rewrite Heq. exact Hs. }
    destruct (created (serve c e r s).2) as [y|] eqn:Hy.
    + rewrite (creations_cons_Some _ _ _ y Hy). case_decide; [|done].
      apply elem_of_app in Hin as [?|?]; apply elem_of_app; [by left|].
      right. by right.
    + by rewrite (creations_cons_None _ _ _ Hy).
  - rewrite (creations_cons_Some _ _ _ y Hy), decide_True by done.
    rewrite cons_middle, (assoc_L (++)). eapply IH; [|exact Hx].
    intros key' x'. rewrite Heq. intros [[_ <-]|[_ Hx']]%lookup_insert_Some.
    + apply elem_of_app. right. left.
    + apply elem_of_app. left. by eapply Hs.
Qed.

(** X11. Whatever a table holds after a run from the empty tables was
    announced by a 201 response of that run, and is filed under its own
    id. *)
Theorem X11_stored_was_created (c : Copy) (tr : list (Env * Request)) (k : Kind)
    (key : string) (x : Entity) :
  table k (run c initial tr).1 !! key = Some x ->
  key = entity_id x /\ entity_kind x = k /\ x ∈ creations k (run c initial tr).2.
Proof.
  intros Hx.
  assert (x ∈ creations k (run c initial tr).2) as Hin.
  { apply (run_sound c k tr initial [] ) with (key := key); [|done].
    intros key' x'. by rewrite table_initial, lookup_empty. }
  split; [|split; [|exact Hin]].
  - eapply keyed_table; [|exact Hx]. apply run_keyed, keyed_initial.
  - unfold creations in Hin. by apply list_elem_of_filter in Hin as [? _].
Qed.

Lemma list_response_store_ne x s k :
  k ≠ entity_kind x -> list_response k (store x s) = list_response k s.
Proof. intros Hne. destruct x, k; try done; reflexivity. Qed.

Lemma construct_validated c k e body : accepts c k body = true -> validated c (construct k e body).
Proof.
  rewrite accepts_iff. intros Hall. unfold validated.
  destruct k; cbn [construct fields_of new_User new_Book new_SwapRequest new_Feedback
                   user_name user_email book_userId book_title book_author
                   book_description swap_bookId swap_requestedById swap_status
                   feedback_userId feedback_swapRequestId feedback_rating
                   feedback_comment];
    repeat (apply Forall_cons; split;
            [apply Hall; apply (bool_decide_unpack _); vm_compute; exact I|]);
    apply Forall_nil_2.
Qed.

Lemma created_validated c e r s x : created (serve c e r s).2 = Some x -> validated c x.
Proof.
  destruct (request_cases r) as [(k & body & ->)|(k & ->)].
  - rewrite serve_create. destruct (accepts c k body) eqn:Hacc; cbn [snd].
    + rewrite created_created_response. intros [= <-]. by apply construct_validated.
    + by rewrite created_bad_request.
  - rewrite serve_list. cbn [snd]. by rewrite created_list_response.
Qed.

Lemma run_validated c tr : forall s,
  (forall k key x, table k s !! key = Some x -> validated c x) ->
  forall k key x, table k (run c s tr).1 !! key = Some x -> validated c x.
Proof.
  induction tr as [|[e r] tr IH]; intros s Hs; [exact Hs|].
  rewrite run_cons. cbn [fst]. apply IH. intros k key x.
  destruct (serve_table c e r s k) as [->|(y & Hy & _ & _ & ->)]; [apply Hs|].
  intros [[_ <-]|[_ Hx]]%lookup_insert_Some; [by eapply created_validated|by eapply Hs].
Qed.

Lemma reachable_validated c s k key x :
  reachable c s -> table k s !! key = Some x -> validated c x.
Proof.
  intros [tr <-]. apply run_validated. intros k' key' x'.
  by rewrite table_initial, lookup_empty.
Qed.

Lemma fields_of_types x v t : (v, t) ∈ fields_of x -> t = "string" \/ t = "number".
Proof.
  destruct x; cbn; intros Hin;
    repeat (apply elem_of_cons in Hin as [[= -> ->]|Hin]; [auto|]);
    by apply elem_of_nil in Hin.
Qed.

(** X14. Every entity the per-route copy has stored holds a non-empty string
    in each string field and, for feedback, a rating that is a number other
    than zero and NaN. *)
Theorem X14_part000_stores_typed_fields (s : State) (k : Kind) (key : string)
    (x : Entity) :
  reachable Part000Copy s ->
  table k s !! key = Some x ->
  Forall (fun vt => strict_value vt.2 vt.1) (fields_of x).
Proof.
  intros Hs Hx. pose proof (reachable_validated _ _ _ _ _ Hs Hx) as Hv.
  unfold validated in Hv. rewrite Forall_forall in Hv |- *. intros [v t] Hin.
  cbn. apply well_typed_strict; [by eapply fields_of_types|]. apply (Hv _ Hin).
Qed.

(** X15. Every entity the server of [src/index.ts] has stored holds, in each
    field, a value that is neither [null] nor [undefined]; nothing more is
    known of its type. *)
Theorem X15_srcindex_stores_provided_fields (s : State) (k : Kind) (key : string)
    (x : Entity) :
  reachable SrcIndexCopy s ->
  table k s !! key = Some x ->
  Forall (fun vt => vt.1 ≠ JsNull /\ vt.1 ≠ JsUndefined) (fields_of x).
Proof.
  intros Hs Hx. pose proof (reachable_validated _ _ _ _ _ Hs Hx) as Hv.
  unfold validated in Hv. rewrite Forall_forall in Hv |- *. intros [v t] Hin.
  cbn. apply present_iff. apply (Hv _ Hin).
Qed.

(** X16. After a run from the empty tables a table holds at most as many
    entities as 201 responses of its kind were sent. *)
Theorem X16_table_bounded_by_creations (c : Copy) (tr : list (Env * Request))
    (k : Kind) :
  (size (table k (run c initial tr).1) <=
   length (creations k (run c initial tr).2))%nat.
Proof.
  rewrite <- length_map_to_list.
  rewrite <- (length_fmap snd (map_to_list (table k (run c initial tr).1))).
  apply submseteq_length, NoDup_submseteq.
  - apply (NoDup_fmap_1 entity_id). rewrite <- list_fmap_compose.
    erewrite (Forall_fmap_ext_1 (entity_id ∘ snd) fst);
      [apply NoDup_fst_map_to_list|].
    apply Forall_forall. intros [key x] Hin%elem_of_map_to_list. cbn. symmetry.
    eapply keyed_table; [|exact Hin]. apply run_keyed, keyed_initial.
  - intros x ([key y] & -> & Hin%elem_of_map_to_list)%list_elem_of_fmap. cbn.
    apply (run_sound c k tr initial []) with (key := key); [|done].
    intros key' x'. by rewrite table_initial, lookup_empty.
Qed.

(** ** Runs and the id generator *)

Lemma run_app c tr1 tr2 : forall s,
  run c s (tr1 ++ tr2) =
  ((run c (run c s tr1).1 tr2).1,
   (run c s tr1).2 ++ (run c (run c s tr1).1 tr2).2).
Proof.
  induction tr1 as [|[e r] tr1 IH]; intros s.
  - cbn. by destruct (run c s tr2).
  - rewrite <- app_comm_cons, !run_cons. cbn [fst snd]. by rewrite IH.
Qed.

Lemma run_app_cons_fst c tr1 e r tr2 s :
  (run c s (tr1 ++ (e, r) :: tr2)).1 =
  (run c (serve c e r (run c s tr1).1).1 tr2).1.
Proof. by rewrite run_app, run_cons. Qed.

(** The entity of a 201 response carries the id the generator returned for
    that request, and is what the table of its kind holds under that id once
    the request is served. *)
Lemma created_draw c e r s x :
  created (serve c e r s).2 = Some x ->
  entity_id x = uuidv4 e /\
  table (entity_kind x) (serve c e r s).1 !! uuidv4 e = Some x.
Proof.
  destruct (request_cases r) as [(k & body & ->)|(k & ->)].
  - destruct (accepts c k body) eqn:Hacc.
    + pose proof (table_store_construct c k e body s Hacc) as Ht.
      rewrite serve_create, Hacc in Ht |- *. cbn [fst snd] in Ht |- *.
      rewrite created_created_response. intros [= <-].
      rewrite construct_id, construct_kind. split; [done|].
      rewrite Ht. apply lookup_insert_eq.
    + rewrite serve_create, Hacc. cbn [snd]. by rewrite created_bad_request.
  - rewrite serve_list. cbn [snd]. by rewrite created_list_response.
Qed.

Lemma draws_app tr1 tr2 : draws (tr1 ++ tr2) = draws tr1 ++ draws tr2.
Proof. unfold draws. by rewrite !fmap_app. Qed.

Lemma draws_cons e r tr : draws ((e, r) :: tr) = uuidv4 e :: draws tr.
Proof. done. Qed.

Lemma not_drawn tr key : key ∉ draws tr -> Forall (fun er => uuidv4 er.1 ≠ key) tr.
Proof.
  intros Hkey. apply Forall_forall. intros [e r] Hin <-. apply Hkey.
  unfold draws. apply list_elem_of_fmap. exists e. split; [done|].
  apply list_elem_of_fmap. by exists (e, r).
Qed.

(** The ids of the entities created in a run are among the ids drawn, in the
    order of the draws. *)
Lemma creations_draws c k tr : forall s,
  entity_id <$> creations k (run c s tr).2 `sublist_of` draws tr.
Proof.
  induction tr as [|[e r] tr IH]; intros s; [done|].
  rewrite run_cons, draws_cons. cbn [snd].
  destruct (created (serve c e r s).2) as [x|] eqn:Hx.
  - rewrite (creations_cons_Some _ _ _ x Hx).
    destruct (created_draw c e r s x Hx) as [<- _].
    case_decide; [rewrite fmap_cons; by apply sublist_skip|by apply sublist_cons].
  - rewrite (creations_cons_None _ _ _ Hx). by apply sublist_cons.
Qed.

Lemma creations_NoDup c k tr s :
  NoDup (draws tr) -> NoDup (entity_id <$> creations k (run c s tr).2).
Proof. intros Hnd. eapply sublist_NoDup; [exact Hnd|apply creations_draws]. Qed.

(** C7. As long as the id generator never returns the same id twice, two
    create requests of one run that are answered 201 give two different
    entities, each with the id drawn for it, and both are in the table of
    their kind under their own id at the end of the run, whatever was served
    after them; no two entries of a table carry the same id. *)
Theorem C7_creates_are_distinct (c : Copy) (tr1 tr2 tr3 : list (Env * Request))
    (e1 e2 : Env) (q1 q2 : Request) (k : Kind) (a b : Entity) :
  NoDup (draws (tr1 ++ (e1, q1) :: tr2 ++ (e2, q2) :: tr3)) ->
  created (serve c e1 q1 (run c initial tr1).1).2 = Some a ->
  created (serve c e2 q2 (run c initial (tr1 ++ (e1, q1) :: tr2)).1).2 = Some b ->
  entity_kind a = k -> entity_kind b = k ->
  entity_id a = uuidv4 e1 /\ entity_id b = uuidv4 e2 /\
  entity_id a ≠ entity_id b /\ a ≠ b /\
  table k (run c initial (tr1 ++ (e1, q1) :: tr2 ++ (e2, q2) :: tr3)).1
    !! entity_id a = Some a /\
  table k (run c initial (tr1 ++ (e1, q1) :: tr2 ++ (e2, q2) :: tr3)).1
    !! entity_id b = Some b /\
  (forall key key' x y,
     table k (run c initial (tr1 ++ (e1, q1) :: tr2 ++ (e2, q2) :: tr3)).1
       !! key = Some x ->
     table k (run c initial (tr1 ++ (e1, q1) :: tr2 ++ (e2, q2) :: tr3)).1
       !! key' = Some y ->
     entity_id x = entity_id y -> key = key' /\ x = y).
Proof.
  intros Hnd Ha Hb Hka Hkb.
  destruct (created_draw _ _ _ _ _ Ha) as [Hida Hsa].
  destruct (created_draw _ _ _ _ _ Hb) as [Hidb Hsb].
  rewrite Hka in Hsa. rewrite Hkb in Hsb.
  rewrite draws_app, draws_cons, draws_app, draws_cons in Hnd.
  apply NoDup_app in Hnd as (_ & _ & Hnd).
  apply NoDup_cons in Hnd as [Hn1 Hnd].
  apply NoDup_app in Hnd as (_ & _ & Hnd).
  apply NoDup_cons in Hnd as [Hn2 _].
  assert (uuidv4 e1 ≠ uuidv4 e2) as Hne.
  { intros Heq. apply Hn1. rewrite Heq. apply elem_of_app. right. left. }
  split; [done|]. split; [done|]. split; [congruence|]. split; [congruence|].
  split; [|split].
  - rewrite run_app_cons_fst, Hida.
    apply run_lookup_survives; [done|].
    apply not_drawn. by rewrite draws_app, draws_cons.
  - change (tr1 ++ (e1, q1) :: tr2 ++ (e2, q2) :: tr3)
      with (tr1 ++ ((e1, q1) :: tr2) ++ (e2, q2) :: tr3).
    rewrite (assoc_L (++) tr1 ((e1, q1) :: tr2)), run_app_cons_fst, Hidb.
    apply run_lookup_survives; [done|]. by apply not_drawn.
  - intros key key' x y Hx Hy Hid.
    assert (keyed (run c initial (tr1 ++ (e1, q1) :: tr2 ++ (e2, q2) :: tr3)).1) as Hk
      by apply run_keyed, keyed_initial.
    assert (key = key') as <-.
    { rewrite (keyed_table _ _ _ _ Hk Hx), (keyed_table _ _ _ _ Hk Hy). done. }
    split; [done|]. congruence.
Qed.

(** C6. POST /users with [name] sent as the object [{__bigint__: "1"}]: the
    handler of [src/index.ts] answers 201 and stores the user, where the
    per-route copy answers 400.  With a table library that cannot hand that
    object back, the next GET /users answers 500 instead of 200 with the
    user created. *)
Theorem C6_object_name_breaks_listing (e : Env) (s : State) :
  read_back (JsObject [("__bigint__", JsString "1")]) = None ->
  SrcIndex.post_users e user_object_name s =
    (store (EUser (new_User e (JsObject [("__bigint__", JsString "1")])
                     (JsString "ada@example.com"))) s,
     {| status := 201;
        json := JUser "User created successfully"
                  (new_User e (JsObject [("__bigint__", JsString "1")])
                     (JsString "ada@example.com")) |}) /\
  (SrcIndex.get_users (SrcIndex.post_users e user_object_name s).1).2 =
    {| status := 500;
       json := JError "Server error occurred while retrieving users." |} /\
  Part000.post_users e user_object_name s = (s, bad_request KUser).
Proof.
  intros Hread. split; [reflexivity|]. split; [|reflexivity].
  unfold SrcIndex.get_users.
  rewrite (values_unreadable read_User _ (uuidv4 e)
             (new_User e (JsObject [("__bigint__", JsString "1")])
                (JsString "ada@example.com"))); [done| |].
  - apply lookup_insert_eq.
  - unfold read_User. cbn. by rewrite Hread.
Qed.

(** The entities a table holds after a run from the empty tables are plain
    when the entities created in the run are. *)
Lemma stored_plain c k tr key x :
  Forall plain_entity (creations k (run c initial tr).2) ->
  table k (run c initial tr).1 !! key = Some x -> plain_entity x.
Proof.
  intros Hall Hx. rewrite Forall_forall in Hall. apply Hall.
  apply (run_sound c k tr initial []) with (key := key); [|done].
  intros key' x'. by rewrite table_initial, lookup_empty.
Qed.

(** X17. After any sequence of requests served from the empty tables in
    which the id generator never returns the same id twice and every entity
    created of one kind holds strings and finite numbers only, the list
    endpoint of that kind answers 200 with the entities the 201 responses
    announced, each one once, in ascending order of id, provided the table
    library hands such values back as they were stored. *)
Theorem X17_list_returns_created (c : Copy) (tr : list (Env * Request)) (k : Kind)
    (e : Env) :
  NoDup (draws tr) ->
  preserves_plain ->
  Forall plain_entity (creations k (run c initial tr).2) ->
  status (serve c e (list_request k) (run c initial tr).1).2 = 200 /\
  listed (serve c e (list_request k) (run c initial tr).1).2
    ≡ₚ creations k (run c initial tr).2 /\
  length (listed (serve c e (list_request k) (run c initial tr).1).2) =
    length (creations k (run c initial tr).2) /\
  Sorted id_le (listed (serve c e (list_request k) (run c initial tr).1).2).
Proof.
  intros Hnd Hlib Hplain.
  assert (list_response k (run c initial tr).1 = listing k (run c initial tr).1) as Hlist.
  { apply list_response_readable. intros key x Hx.
    apply read_entity_plain; [done|]. by eapply stored_plain. }
  assert (listed (listing k (run c initial tr).1) ≡ₚ creations k (run c initial tr).2)
    as Hperm.
  { rewrite listed_listing, run_log_initial, with_ids_snd; [done|].
    by apply creations_NoDup. }
  rewrite serve_list. cbn [snd]. rewrite Hlist.
  split; [done|]. split; [exact Hperm|]. split; [by rewrite Hperm|].
  apply listing_Sorted, run_keyed, keyed_initial.
Qed.

(** X13. What a 201 response carries can be read back at once: the entity is
    in the table of its kind under the id of the response, and the list
    calls of the other three kinds answer as they did before the create.
    When the table then holds strings and finite numbers only, and the table
    library hands such values back as they were stored, the next list call of
    that kind answers 200 with the entity in its array. *)
Theorem X13_created_then_listed (c : Copy) (k : Kind) (e e' : Env)
    (body : gmap string JsValue) (s : State) :
  status (serve c e (create_request k body) s).2 = 201 ->
  exists x,
    created (serve c e (create_request k body) s).2 = Some x /\
    table k (serve c e (create_request k body) s).1 !! entity_id x = Some x /\
    (forall k', k' ≠ k ->
       (serve c e' (list_request k') (serve c e (create_request k body) s).1).2 =
       (serve c e' (list_request k') s).2) /\
    (preserves_plain ->
     (forall key y, table k (serve c e (create_request k body) s).1 !! key = Some y ->
                    plain_entity y) ->
     status (serve c e' (list_request k) (serve c e (create_request k body) s).1).2
       = 200 /\
     x ∈ listed (serve c e' (list_request k)
                   (serve c e (create_request k body) s).1).2).
Proof.
  intros Hacc%status_create. exists (construct k e body).
  pose proof (table_store_construct c k e body s Hacc) as Ht.
  assert (table k (serve c e (create_request k body) s).1 !! entity_id (construct k e body)
          = Some (construct k e body)) as Hlook
    by (rewrite Ht, construct_id; apply lookup_insert_eq).
  split; [|split; [exact Hlook|split]].
  - rewrite serve_create, Hacc. apply created_created_response.
  - intros k' Hne. rewrite !serve_list, serve_create, Hacc. cbn [fst snd].
    apply list_response_store_ne. by rewrite construct_kind.
  - intros Hlib Hplain. rewrite serve_list. cbn [snd].
    rewrite list_response_readable
      by (intros key y Hy; apply read_entity_plain; [done|by eapply Hplain]).
    split; [done|]. rewrite listed_listing.
    apply list_elem_of_fmap. exists (entity_id (construct k e body), construct k e body).
    split; [done|]. by apply elem_of_map_to_list.
Qed.

End Proofs.

(** ** Examples *)

#[global] Existing Instance sample_library.

Lemma sample_preserves_plain : preserves_plain.
Proof. intros v Hv. destruct v as [| |b|x|str|xs|fs|]; try done. Qed.

Lemma C2_missing_description :
  "description" ∈ required_fields KBook /\
  (prop book_without_description "description" = JsUndefined \/
   prop book_without_description "description" = JsNull) /\
  serve SrcIndexCopy env1 (PostBooks book_without_description) initial =
    (initial, bad_request KBook) /\
  serve Part000Copy env1 (PostBooks book_without_description) initial =
    (initial, bad_request KBook).
Proof.
  assert ("description" ∈ required_fields KBook) as H1
    by (apply (bool_decide_unpack _); vm_compute; exact I).
  assert (prop book_without_description "description" = JsUndefined \/
          prop book_without_description "description" = JsNull) as H2
    by (left; reflexivity).
  split; [exact H1|]. split; [exact H2|]. split.
  - apply (C2_missing_field_rejected SrcIndexCopy KBook book_without_description
             "description" env1 initial H1 H2).
  - apply (C2_missing_field_rejected Part000Copy KBook book_without_description
             "description" env1 initial H1 H2).
Defined.

Lemma C9_first_user :
  status (serve SrcIndexCopy env1 (PostUsers ada_body) initial).2 = 201 /\
  table KUser initial !! uuidv4 env1 = None /\
  size (table KUser (serve SrcIndexCopy env1 (PostUsers ada_body) initial).1) = 1%nat /\
  others_unchanged KUser initial (serve SrcIndexCopy env1 (PostUsers ada_body) initial).1.
Proof.
  assert (table KUser initial !! uuidv4 env1 = None) as H by reflexivity.
  destruct (C9_create_mutates_one_table SrcIndexCopy KUser env1 ada_body initial)
    as (_ & Hok & _).
  assert (status (serve SrcIndexCopy env1 (PostUsers ada_body) initial).2 = 201)
    as H201 by reflexivity.
  destruct (Hok H201) as (x & _ & _ & _ & _ & Hothers & Hsize).
  split; [exact H201|]. split; [exact H|]. split; [exact (Hsize H)|exact Hothers].
Defined.

Lemma C10_after_one_user :
  reachable Part000Copy (run Part000Copy initial [(env1, PostUsers ada_body)]).1 /\
  keyed (run Part000Copy initial [(env1, PostUsers ada_body)]).1.
Proof.
  assert (reachable Part000Copy (run Part000Copy initial [(env1, PostUsers ada_body)]).1)
    as H by (exists [(env1, PostUsers ada_body)]; reflexivity).
  split; [exact H|].
  exact (proj1 (C10_tables_keyed_by_id Part000Copy _ H)).
Defined.

Lemma C5_ada :
  exists u,
    (serve SrcIndexCopy env1 (PostUsers ada_body) initial).2 =
      {| status := 201; json := JUser "User created successfully" u |} /\
    user_name u = JsString "Ada" /\
    user_email u = JsString "ada@example.com" /\
    user_id u = "id-1" /\ user_id u ≠ "".
Proof.
  destruct (C5_user_created_verbatim SrcIndexCopy env1 ada_body initial
              "Ada" "ada@example.com")
    as (u & H1 & H2 & H3 & H4 & H5 & _); try reflexivity; try discriminate.
  exists u. repeat split; assumption.
Defined.

Lemma X4_ada_same_in_both :
  status (Part000.handle env1 (PostUsers ada_body) initial).2 ≠ 400 /\
  SrcIndex.handle env1 (PostUsers ada_body) initial =
  Part000.handle env1 (PostUsers ada_body) initial.
Proof.
  assert (status (Part000.handle env1 (PostUsers ada_body) initial).2 ≠ 400) as H
    by (intros H; vm_compute in H; discriminate H).
  split; [exact H|].
  exact (proj1 (X4_copies_agree env1 (PostUsers ada_body) initial) H).
Defined.

Lemma X5_admin_flag_is_ignored :
  (forall f, f ∈ required_fields KUser -> ada_body_admin !! f = ada_body !! f) /\
  serve SrcIndexCopy env1 (PostUsers ada_body_admin) initial =
  serve SrcIndexCopy env1 (PostUsers ada_body) initial.
Proof.
  assert (forall f, f ∈ required_fields KUser -> ada_body_admin !! f = ada_body !! f) as H.
  { intros f Hf. cbn in Hf.
    repeat (apply elem_of_cons in Hf as [->|Hf]; [reflexivity|]).
    by apply elem_of_nil in Hf. }
  split; [exact H|].
  exact (X5_create_reads_required_fields_only SrcIndexCopy KUser env1
           ada_body_admin ada_body initial H).
Defined.

Lemma X8_ada_survives_bob :
  table KUser (run Part000Copy initial [(env1, PostUsers ada_body)]).1 !! "id-1" =
    Some (construct KUser env1 ada_body) /\
  table KUser
    (run Part000Copy (run Part000Copy initial [(env1, PostUsers ada_body)]).1
       [(env2, PostUsers bob_body); (env3, GetUsers)]).1 !! "id-1" =
    Some (construct KUser env1 ada_body).
Proof.
  assert (table KUser (run Part000Copy initial [(env1, PostUsers ada_body)]).1 !! "id-1" =
          Some (construct KUser env1 ada_body)) as H by reflexivity.
  split; [exact H|].
  apply (X8_entry_survives Part000Copy [(env2, PostUsers bob_body); (env3, GetUsers)]
           _ KUser "id-1" _ H).
  repeat constructor; discriminate.
Defined.

Lemma X9_bob_replaces_ada :
  table KUser (serve SrcIndexCopy env1 (PostUsers ada_body) initial).1 !! uuidv4 env1 =
    Some (construct KUser env1 ada_body) /\
  table KUser
    (serve SrcIndexCopy env1 (PostUsers bob_body)
       (serve SrcIndexCopy env1 (PostUsers ada_body) initial).1).1 !! "id-1" =
    Some (construct KUser env1 bob_body) /\
  size (table KUser
          (serve SrcIndexCopy env1 (PostUsers bob_body)
             (serve SrcIndexCopy env1 (PostUsers ada_body) initial).1).1) = 1%nat.
Proof.
  assert (table KUser (serve SrcIndexCopy env1 (PostUsers ada_body) initial).1
            !! uuidv4 env1 = Some (construct KUser env1 ada_body)) as H by reflexivity.
  destruct (X9_id_collision_overwrites SrcIndexCopy KUser env1 bob_body _ _ H eq_refl)
    as (Hnew & Hsize & _).
  split; [exact H|]. split; [exact Hnew|]. exact (eq_trans Hsize eq_refl).
Defined.

Lemma X11_ada_was_created :
  table KUser (run Part000Copy initial ada_twice).1 !! "id-2" =
    Some (construct KUser env2 ada_body) /\
  construct KUser env2 ada_body ∈ creations KUser (run Part000Copy initial ada_twice).2.
Proof.
  assert (table KUser (run Part000Copy initial ada_twice).1 !! "id-2" =
          Some (construct KUser env2 ada_body)) as H by reflexivity.
  split; [exact H|].
  exact (proj2 (proj2 (X11_stored_was_created Part000Copy ada_twice KUser "id-2" _ H))).
Defined.

Lemma X14_ada_is_typed :
  reachable Part000Copy (run Part000Copy initial ada_twice).1 /\
  table KUser (run Part000Copy initial ada_twice).1 !! "id-1" =
    Some (construct KUser env1 ada_body) /\
  Forall (fun vt => strict_value vt.2 vt.1) (fields_of (construct KUser env1 ada_body)).
Proof.
  assert (reachable Part000Copy (run Part000Copy initial ada_twice).1) as H1
    by (by exists ada_twice).
  assert (table KUser (run Part000Copy initial ada_twice).1 !! "id-1" =
          Some (construct KUser env1 ada_body)) as H2 by reflexivity.
  split; [exact H1|]. split; [exact H2|].
  exact (X14_part000_stores_typed_fields _ KUser "id-1" _ H1 H2).
Defined.

Lemma X15_string_rating_is_provided :
  reachable SrcIndexCopy
    (run SrcIndexCopy initial [(env1, PostFeedback feedback_rating_five)]).1 /\
  table KFeedback
    (run SrcIndexCopy initial [(env1, PostFeedback feedback_rating_five)]).1 !! "id-1" =
    Some (construct KFeedback env1 feedback_rating_five) /\
  Forall (fun vt => vt.1 ≠ JsNull /\ vt.1 ≠ JsUndefined)
         (fields_of (construct KFeedback env1 feedback_rating_five)).
Proof.
  assert (reachable SrcIndexCopy
            (run SrcIndexCopy initial [(env1, PostFeedback feedback_rating_five)]).1) as H1
    by (by exists [(env1, PostFeedback feedback_rating_five)]).
  assert (table KFeedback
            (run SrcIndexCopy initial [(env1, PostFeedback feedback_rating_five)]).1
            !! "id-1" = Some (construct KFeedback env1 feedback_rating_five)) as H2
    by reflexivity.
  split; [exact H1|]. split; [exact H2|].
  exact (X15_srcindex_stores_provided_fields _ KFeedback "id-1" _ H1 H2).
Defined.

Lemma C7_same_body_twice :
  NoDup (draws ([] ++ (env1, PostUsers ada_body) :: [] ++ (env2, PostUsers ada_body) :: [])) /\
  created (serve Part000Copy env1 (PostUsers ada_body) (run Part000Copy initial []).1).2 =
    Some (construct KUser env1 ada_body) /\
  created (serve Part000Copy env2 (PostUsers ada_body)
             (run Part000Copy initial ([] ++ (env1, PostUsers ada_body) :: [])).1).2 =
    Some (construct KUser env2 ada_body) /\
  entity_id (construct KUser env1 ada_body) ≠ entity_id (construct KUser env2 ada_body) /\
  table KUser (run Part000Copy initial ada_twice).1 !! "id-1" =
    Some (construct KUser env1 ada_body) /\
  table KUser (run Part000Copy initial ada_twice).1 !! "id-2" =
    Some (construct KUser env2 ada_body).
Proof.
  assert (NoDup (draws ([] ++ (env1, PostUsers ada_body) :: []
                           ++ (env2, PostUsers ada_body) :: []))) as H1
    by (apply (bool_decide_unpack _); vm_compute; exact I).
  destruct (C7_creates_are_distinct Part000Copy [] [] [] env1 env2
              (PostUsers ada_body) (PostUsers ada_body) KUser
              (construct KUser env1 ada_body) (construct KUser env2 ada_body)
              H1 eq_refl eq_refl eq_refl eq_refl)
    as (_ & _ & Hne & _ & Ha & Hb & _).
  split; [exact H1|]. split; [reflexivity|]. split; [reflexivity|].
  split; [exact Hne|]. split; [exact Ha|exact Hb].
Defined.

Lemma C6_bigint_name :
  read_back (JsObject [("__bigint__", JsString "1")]) = None /\
  status (SrcIndex.post_users env1 user_object_name initial).2 = 201 /\
  status (SrcIndex.get_users (SrcIndex.post_users env1 user_object_name initial).1).2
    = 500.
Proof.
  assert (read_back (JsObject [("__bigint__", JsString "1")]) = None) as H
    by reflexivity.
  destruct (C6_object_name_breaks_listing env1 initial H) as (Hpost & Hget & _).
  split; [exact H|]. split; [by rewrite Hpost|by rewrite Hget].
Defined.

Lemma X10_ada_and_bob :
  uuidv4 env1 ≠ uuidv4 env2 /\
  status <$> (run SrcIndexCopy initial ada_then_bob).2 = [201; 201] /\
  (run SrcIndexCopy initial [(env1, PostUsers ada_body); (env2, PostUsers bob_body)]).1 =
  (run SrcIndexCopy initial [(env2, PostUsers bob_body); (env1, PostUsers ada_body)]).1.
Proof.
  assert (uuidv4 env1 ≠ uuidv4 env2) as H by discriminate.
  split; [exact H|]. split; [reflexivity|].
  exact (X10_requests_commute SrcIndexCopy env1 env2 (PostUsers ada_body)
           (PostUsers bob_body) initial H).
Defined.

Lemma X13_ada_is_listed :
  status (serve Part000Copy env1 (PostUsers ada_body) initial).2 = 201 /\
  status (serve Part000Copy env2 GetUsers
            (serve Part000Copy env1 (PostUsers ada_body) initial).1).2 = 200 /\
  construct KUser env1 ada_body ∈
    listed (serve Part000Copy env2 GetUsers
              (serve Part000Copy env1 (PostUsers ada_body) initial).1).2.
Proof.
  assert (status (serve Part000Copy env1 (PostUsers ada_body) initial).2 = 201)
    as H by reflexivity.
  split; [exact H|].
  destruct (X13_created_then_listed Part000Copy KUser env1 env2 ada_body initial H)
    as (x & Hx & _ & _ & Hlist).
  assert (x = construct KUser env1 ada_body) as -> by (by injection Hx).
  apply Hlist; [exact sample_preserves_plain|].
  intros key y Hy.
  rewrite (table_store_construct Part000Copy KUser env1 ada_body initial eq_refl) in Hy.
  rewrite table_initial in Hy.
  apply lookup_insert_Some in Hy as [[_ <-]|[_ Hy]]; [|by rewrite lookup_empty in Hy].
  repeat constructor.
Defined.

Lemma X17_three_users :
  NoDup (draws three_users) /\
  Forall plain_entity (creations KUser (run SrcIndexCopy initial three_users).2) /\
  status (serve SrcIndexCopy env1 GetUsers (run SrcIndexCopy initial three_users).1).2 = 200 /\
  length (listed (serve SrcIndexCopy env1 GetUsers
                    (run SrcIndexCopy initial three_users).1).2) = 3%nat /\
  entity_id <$> listed (serve SrcIndexCopy env1 GetUsers
                          (run SrcIndexCopy initial three_users).1).2
    ≡ₚ ["id-1"; "id-2"; "id-3"].
Proof.
  assert (NoDup (draws three_users)) as H1
    by (apply (bool_decide_unpack _); vm_compute; exact I).
  assert (Forall plain_entity (creations KUser (run SrcIndexCopy initial three_users).2))
    as H2 by (repeat constructor).
  destruct (X17_list_returns_created SrcIndexCopy three_users KUser env1 H1
              sample_preserves_plain H2) as (H200 & Hperm & Hlen & _).
  split; [exact H1|]. split; [exact H2|]. split; [exact H200|]. split; [exact Hlen|].
  change (list_request KUser) with GetUsers in Hperm.
  rewrite Hperm. reflexivity.
Defined.
